(** * Galcon 9001BT BLE irrigation controller: driver and coordinator

    A shallow embedding of [custom_components/galcon_bt/const.py],
    [galcon_device.py] and [coordinator.py], and the properties of the
    status codec, the transport executor, the verified command protocol
    and the poll/command coordinator that are established on it.

    Conventions of the embedding
    - Python [int] is [Z]; [bytes] is [list byte]; [str] is [string].
    - Durations passed to [asyncio.sleep] are the exact rationals the
      source's float literals denote ([Q]).
    - An [async def] is a computation in the monad [M S], which threads a
      state and may end in a raised exception; the state survives a raise,
      as every effect performed before a Python exception does.
    - The radio is an environment [Env]: the outcome of the k-th connect,
      disconnect, GATT read and GATT write is given by an oracle, and the
      driver's I/O is recorded in a trace of [Event]s.
    - Logging calls have no effect on the control flow and are left out. *)

From Stdlib Require Import ZArith List String Bool Lia QArith.
From Stdlib Require Import Strings.Byte.
From Stdlib Require Import DecimalString.
Import ListNotations.
Local Open Scope string_scope.
Local Open Scope Z_scope.

Set Implicit Arguments.

(** ** Python values shared by both modules *)

Definition bytes := list byte.

Definition int_of_byte (b : byte) : Z := Z.of_N (Byte.to_N b).

(** [len(x)] *)
Definition len {A} (l : list A) : Z := Z.of_nat (List.length l).

(** [bool(n)] for an [int]. *)
Definition py_bool (n : Z) : bool := negb (n =? 0).

(** [str(n)] for an [int]. *)
Definition str_int (n : Z) : string := NilZero.string_of_int (Z.to_int n).

(** [range(lo, hi)] *)
Definition range (lo hi : Z) : list Z :=
  map (fun i => lo + Z.of_nat i) (seq 0 (Z.to_nat (hi - lo))).

(** Exception classes that the two modules raise or catch.  [ConnectionError]
    and [TimeoutError] are subclasses of [OSError] in Python; every class
    below is a subclass of [Exception].  [OtherException] stands for any
    other [Exception] subclass (a programming error, a framework error). *)
Inductive exn_class :=
| BleakError
| TimeoutError
| OSError
| ConnectionError
| IndexError
| UpdateFailed
| OtherException.

(** An exception object: its class and [str(err)]; [ExnFrom] is an exception
    raised with [raise ... from cause]. *)
Inductive exn :=
| Exn (cls : exn_class) (msg : string)
| ExnFrom (cls : exn_class) (msg : string) (cause : exn).

Definition exn_cls (e : exn) : exn_class :=
  match e with Exn c _ | ExnFrom c _ _ => c end.
Definition str_exn (e : exn) : string :=
  match e with Exn _ m | ExnFrom _ m _ => m end.
Definition exn_cause (e : exn) : option exn :=
  match e with Exn _ _ => None | ExnFrom _ _ c => Some c end.

(** [str(x)] for [x : Exception | None]. *)
Definition str_opt_exn (e : option exn) : string :=
  match e with Some e => str_exn e | None => "None" end.

(** [isinstance(err, (BleakError, asyncio.TimeoutError, OSError))] *)
Definition is_transient (e : exn) : bool :=
  match exn_cls e with
  | BleakError | TimeoutError | OSError | ConnectionError => true
  | IndexError | UpdateFailed | OtherException => false
  end.

(** [isinstance(err, (ConnectionError, Exception))] *)
Definition is_exception (e : exn) : bool := true.

(** The result of running Python code: a value or a raised exception. *)
Inductive Result (A : Type) :=
| Ok (a : A)
| Raise (e : exn).
Arguments Ok {A} a.
Arguments Raise {A} e.

Definition is_ok {A} (r : Result A) : bool :=
  match r with Ok _ => true | Raise _ => false end.

Definition rbind {A B} (r : Result A) (k : A -> Result B) : Result B :=
  match r with Ok a => k a | Raise e => Raise e end.

Notation "x <-! r ;; k" := (rbind r (fun x => k))
  (at level 61, r at next level, right associativity).

(** ** const.py *)

Module Const.

Inductive Characteristic := UUID_WAKE | UUID_STATUS | UUID_CONTROL | UUID_PIN.

Definition uuid (c : Characteristic) : string :=
  match c with
  | UUID_WAKE => "e8680201-9c4b-11e4-b5f7-0002a5d5c51b"
  | UUID_STATUS => "e8680102-9c4b-11e4-b5f7-0002a5d5c51b"
  | UUID_CONTROL => "e8680103-9c4b-11e4-b5f7-0002a5d5c51b"
  | UUID_PIN => "e8680401-9c4b-11e4-b5f7-0002a5d5c51b"
  end.

Definition Characteristic_eqb (a b : Characteristic) : bool :=
  match a, b with
  | UUID_WAKE, UUID_WAKE | UUID_STATUS, UUID_STATUS
  | UUID_CONTROL, UUID_CONTROL | UUID_PIN, UUID_PIN => true
  | _, _ => false
  end.

Definition DOMAIN : string := "galcon_bt".
Definition DEFAULT_SCAN_INTERVAL : Z := 300.
Definition DEFAULT_DURATION : Z := 20.

Definition MAX_RETRIES : Z := 3.
Definition CONNECT_TIMEOUT : Q := 30%Q.
Definition COMMAND_VERIFY_ATTEMPTS : Z := 3.
Definition WAKE_SETTLE_DELAY : Q := 1%Q.
Definition POST_COMMAND_DELAY : Q := (3 # 2)%Q.

Definition MAX_CONSECUTIVE_FAILURES : Z := 5.

Definition CMD_CLOSE_VALVE : bytes := [x01; x00; x00; x00; x00; x00; x00].
Definition CMD_OPEN_VALVE : bytes := [x00; x01; x00; x00; x00; x00; x00].
Definition WAKE_PAYLOAD : bytes := [x01; x02].

Definition STATUS_VALVE_OPEN_MASK : Z := 1.
Definition STATUS_MANUAL_OPEN_MASK : Z := 1.

End Const.
Import Const.

(** ** galcon_device.py: the status record and the codec *)

Record GalconStatus := mkStatus {
  valve_open : bool;
  manual_open : bool;
  hours_remaining : Z;
  minutes_remaining : Z;
  seconds_remaining : Z;
  raw : bytes;
  battery_level : option Z
}.

Definition time_remaining_seconds (s : GalconStatus) : Z :=
  hours_remaining s * 3600 + minutes_remaining s * 60 + seconds_remaining s.

(** [data[i]] for a non-negative index: raises [IndexError] out of range. *)
Definition getitem (data : bytes) (i : nat) : Result Z :=
  match nth_error data i with
  | Some b => Ok (int_of_byte b)
  | None => Raise (Exn IndexError "index out of range")
  end.

Definition _parse_status (data : bytes) : Result GalconStatus :=
  if len data <? 5 then
    Ok {| valve_open := false;
          manual_open := false;
          hours_remaining := 0;
          minutes_remaining := 0;
          seconds_remaining := 0;
          raw := data;
          battery_level := None |}
  else
    b0 <-! getitem data 0 ;;
    let valve_open := py_bool (Z.land b0 STATUS_VALVE_OPEN_MASK) in
    manual_open <-! (if len data >? 1
                     then b1 <-! getitem data 1 ;;
                          Ok (py_bool (Z.land b1 STATUS_MANUAL_OPEN_MASK))
                     else Ok false) ;;
    hours <-! (if len data >? 2 then getitem data 2 else Ok 0) ;;
    minutes <-! (if len data >? 3 then getitem data 3 else Ok 0) ;;
    seconds <-! (if len data >? 4 then getitem data 4 else Ok 0) ;;
    battery <-! (if len data >? 5
                 then b5 <-! getitem data 5 ;; Ok (Some b5)
                 else Ok None) ;;
    Ok {| valve_open := valve_open;
          manual_open := manual_open;
          hours_remaining := hours;
          minutes_remaining := minutes;
          seconds_remaining := seconds;
          raw := data;
          battery_level := battery |}.

(** ** The effect monad

    [M S A] is a computation over a state [S] that returns an [A] or raises.
    The state reached when the exception is raised is kept. *)

Definition M (S A : Type) : Type := S -> Result A * S.

Definition ret {S A} (a : A) : M S A := fun s => (Ok a, s).

Definition raise {S A} (e : exn) : M S A := fun s => (Raise e, s).

Definition bind {S A B} (m : M S A) (k : A -> M S B) : M S B :=
  fun s =>
    match m s with
    | (Ok a, s') => k a s'
    | (Raise e, s') => (Raise e, s')
    end.

Notation "x <- m ;; k" := (bind m (fun x => k))
  (at level 61, m at next level, right associativity).
Notation "m ;; k" := (bind m (fun _ => k))
  (at level 61, right associativity).

(** [try: body / except <classes> as err: handler err] *)
Definition try_except {S A} (body : M S A) (classes : exn -> bool)
    (handler : exn -> M S A) : M S A :=
  fun s =>
    match body s with
    | (Ok a, s') => (Ok a, s')
    | (Raise e, s') => if classes e then handler e s' else (Raise e, s')
    end.

(** [try: body / finally: cleanup].  An exception raised by [cleanup]
    replaces the outcome of [body]. *)
Definition try_finally {S A} (body : M S A) (cleanup : M S unit) : M S A :=
  fun s =>
    let (r, s') := body s in
    match cleanup s' with
    | (Ok _, s'') => (r, s'')
    | (Raise e, s'') => (Raise e, s'')
    end.

(** [if cond: body] *)
Definition when {S} (cond : bool) (body : M S unit) : M S unit :=
  if cond then body else ret tt.

(** ** The radio: events and environment *)

Inductive Event :=
| EvConnect (via_scanner : bool)
| EvDisconnect
| EvWrite (c : Characteristic) (payload : bytes)
| EvRead (c : Characteristic)
| EvSleep (seconds : Q).

(** The I/O performed so far, most recent event first. *)
Definition Trace := list Event.

Definition is_connect (e : Event) : bool :=
  match e with EvConnect _ => true | _ => false end.
Definition is_disconnect (e : Event) : bool :=
  match e with EvDisconnect => true | _ => false end.
Definition is_write (c : Characteristic) (e : Event) : bool :=
  match e with EvWrite c' _ => Characteristic_eqb c' c | _ => false end.
Definition is_read (c : Characteristic) (e : Event) : bool :=
  match e with EvRead c' => Characteristic_eqb c' c | _ => false end.
Definition is_sleep (e : Event) : bool :=
  match e with EvSleep _ => true | _ => false end.

Fixpoint count (p : Event -> bool) (t : Trace) : nat :=
  match t with
  | [] => O
  | e :: t' => if p e then S (count p t') else count p t'
  end.

(** The durations slept, most recent first. *)
Fixpoint sleeps (t : Trace) : list Q :=
  match t with
  | [] => []
  | EvSleep d :: t' => d :: sleeps t'
  | _ :: t' => sleeps t'
  end.

(** What the peripheral and the radio stack answer.  The k-th call of each
    kind (counted from 0 over the whole trace) gets the k-th outcome:
    - [connect_outcome k]: the client's [is_connected] flag when the
      connection call returns, or the exception it raises;
    - [read_outcome c k]: the bytes read from characteristic [c];
    - [clock n]: the time read after [n] events. *)
Record Env := mkEnv {
  connect_outcome : nat -> Result bool;
  disconnect_outcome : nat -> Result unit;
  write_outcome : Characteristic -> nat -> Result unit;
  read_outcome : Characteristic -> nat -> Result bytes;
  clock : nat -> Z
}.

(** ** galcon_device.py: the driver *)

(** What [_verified_command], [open_valve] and [close_valve] return: they
    are annotated [GalconStatus | None]; [VFalse] is Python's [False]. *)
Inductive CommandResult :=
| VStatus (s : GalconStatus)
| VFalse
| VNone.

(** Truth value of a command result ([if result:]); a dataclass instance
    without [__bool__] or [__len__] is true. *)
Definition truthy (r : CommandResult) : bool :=
  match r with VStatus _ => true | VFalse | VNone => false end.

(** [GalconDevice]: the address and the [BLEDevice] reference of the
    scanner, if one was set.  The [asyncio.Lock] serialises calls and has
    no part in a sequential run. *)
Record GalconDevice := mkDevice {
  address : string;
  _ble_device : option string
}.

Definition set_ble_device (ble_device : string) (self : GalconDevice) : GalconDevice :=
  {| address := address self; _ble_device := Some ble_device |}.

(** [self._ble_device is not None] *)
Definition has_ble_device (self : GalconDevice) : bool :=
  match _ble_device self with Some _ => true | None => false end.

(** [b & 0xFF] as a byte of a [bytes([...])] literal. *)
Definition byte_of_masked (n : Z) : byte :=
  match Byte.of_N (Z.to_N (Z.land n 255)) with
  | Some b => b
  | None => x00
  end.

Section Driver.

Variable env : Env.
Variable self : GalconDevice.

(** [establish_connection(...)] when a [BLEDevice] is known, otherwise
    [BleakClient(address, timeout=CONNECT_TIMEOUT)] and [client.connect()].
    Returns [client.is_connected]. *)
Definition connect : M Trace bool :=
  fun t =>
    (connect_outcome env (count is_connect t),
     EvConnect (has_ble_device self) :: t).

Definition disconnect : M Trace unit :=
  fun t => (disconnect_outcome env (count is_disconnect t), EvDisconnect :: t).

Definition write_gatt_char (c : Characteristic) (payload : bytes) : M Trace unit :=
  fun t => (write_outcome env c (count (is_write c) t), EvWrite c payload :: t).

Definition read_gatt_char (c : Characteristic) : M Trace bytes :=
  fun t => (read_outcome env c (count (is_read c) t), EvRead c :: t).

Definition sleep (seconds : Q) : M Trace unit :=
  fun t => (Ok tt, EvSleep seconds :: t).

Definition lift_result {A} (r : Result A) : M Trace A := fun t => (r, t).

(** The loop of [_execute] over the attempts that remain. *)
Fixpoint _execute_loop {A} (callback : M Trace A) (attempts : list Z)
    (last_error : option exn) : M Trace A :=
  match attempts with
  | [] =>
      raise (Exn ConnectionError
               ("Failed to communicate with Galcon device " ++ address self
                ++ " after " ++ str_int MAX_RETRIES ++ " attempts: "
                ++ str_opt_exn last_error))
  | attempt :: rest =>
      r <- try_except
             (is_connected <- connect ;;
              a <- try_finally
                     (if negb is_connected
                      then raise (Exn BleakError "Failed to connect")
                      else callback)
                     disconnect ;;
              ret (inl a))
             is_transient
             (fun err =>
                when (attempt <? MAX_RETRIES)
                     (sleep (2 * inject_Z attempt)) ;;
                ret (inr err)) ;;
      match r with
      | inl a => ret a
      | inr err => _execute_loop callback rest (Some err)
      end
  end.

Definition _execute {A} (callback : M Trace A) : M Trace A :=
  _execute_loop callback (range 1 (MAX_RETRIES + 1)) None.

Definition wake_up : M Trace unit :=
  write_gatt_char UUID_WAKE WAKE_PAYLOAD ;;
  sleep WAKE_SETTLE_DELAY.

Definition _read_status_raw : M Trace GalconStatus :=
  data <- read_gatt_char UUID_STATUS ;;
  lift_result (_parse_status data).

Definition get_status : M Trace GalconStatus :=
  _execute (wake_up ;; _read_status_raw).

(** The verify loop of [_verified_command] over the attempts that remain. *)
Fixpoint _verify_loop (payload : bytes) (expect_open : bool)
    (attempts : list Z) : M Trace CommandResult :=
  match attempts with
  | [] => ret VFalse
  | attempt :: rest =>
      write_gatt_char UUID_CONTROL payload ;;
      sleep POST_COMMAND_DELAY ;;
      try_except
        (write_gatt_char UUID_WAKE WAKE_PAYLOAD ;;
         sleep (1 # 2))
        is_transient
        (fun _ => ret tt) ;;
      confirmed <- try_except
                     (post_status <- _read_status_raw ;;
                      if Bool.eqb (valve_open post_status) expect_open
                      then ret (Some post_status)
                      else ret None)
                     is_transient
                     (fun err => ret None) ;;
      match confirmed with
      | Some post_status => ret (VStatus post_status)
      | None =>
          sleep 1 ;;
          _verify_loop payload expect_open rest
      end
  end.

Definition _verified_command (payload : bytes) (expect_open : bool)
    : M Trace CommandResult :=
  wake_up ;;
  pre_status <- _read_status_raw ;;
  if Bool.eqb (valve_open pre_status) expect_open
  then ret (VStatus pre_status)
  else _verify_loop payload expect_open (range 1 (COMMAND_VERIFY_ATTEMPTS + 1)).

Definition open_payload (hours minutes seconds : Z) : bytes :=
  if (hours =? 0) && (minutes =? 0) && (seconds =? 0)
  then CMD_OPEN_VALVE
  else [x00; x03; x00; byte_of_masked hours; byte_of_masked minutes;
        byte_of_masked seconds; x00].

(** The callback [_open] of [open_valve]. *)
Definition _open (payload : bytes) : M Trace CommandResult :=
  result <- _verified_command payload true ;;
  ret result.

Definition open_valve (hours minutes seconds : Z) : M Trace CommandResult :=
  _execute (_open (open_payload hours minutes seconds)).

(** The callback [_close] of [close_valve]. *)
Definition _close : M Trace CommandResult :=
  result <- _verified_command CMD_CLOSE_VALVE false ;;
  ret result.

Definition close_valve : M Trace CommandResult :=
  _execute _close.

End Driver.

(** ** coordinator.py *)

Inductive OperationState :=
| IDLE | CONNECTING | OPENING | CLOSING | VERIFYING | CONFIRMED | ERROR | SCANNING.

(** A registered listener: a no-argument callback, known by a number. *)
Definition Listener := nat.

(** The attributes of a [GalconCoordinator].  Timestamps are [Z]; intervals
    ([timedelta]) are in seconds.  [update_interval] and [data] belong to the
    [DataUpdateCoordinator] base class.  The last three fields are
    observations: every value assigned to [operation_state], every listener
    call with the phase the listener sees, and every status handed to
    [async_set_updated_data] (all most recent first). *)
Record Coordinator := mkCoordinator {
  device : GalconDevice;
  consecutive_failures : Z;
  last_successful_poll : option Z;
  _last_known_status : option GalconStatus;
  polling_enabled : bool;
  _base_interval : Z;
  duration_minutes : Z;
  last_irrigation_start : option Z;
  last_irrigation_duration_min : option Z;
  _current_irrigation_start : option Z;
  _current_irrigation_duration : Z;
  operation_state : OperationState;
  _state_listeners : list Listener;
  update_interval : Z;
  data : option GalconStatus;
  phase_history : list OperationState;
  listener_calls : list (Listener * OperationState);
  published : list (option GalconStatus)
}.

Definition set_consecutive_failures (v : Z) (c : Coordinator) : Coordinator :=
  {| device := device c; consecutive_failures := v;
     last_successful_poll := last_successful_poll c;
     _last_known_status := _last_known_status c;
     polling_enabled := polling_enabled c; _base_interval := _base_interval c;
     duration_minutes := duration_minutes c;
     last_irrigation_start := last_irrigation_start c;
     last_irrigation_duration_min := last_irrigation_duration_min c;
     _current_irrigation_start := _current_irrigation_start c;
     _current_irrigation_duration := _current_irrigation_duration c;
     operation_state := operation_state c;
     _state_listeners := _state_listeners c;
     update_interval := update_interval c; data := data c;
     phase_history := phase_history c; listener_calls := listener_calls c;
     published := published c |}.

Definition set_last_successful_poll (v : option Z) (c : Coordinator) : Coordinator :=
  {| device := device c; consecutive_failures := consecutive_failures c;
     last_successful_poll := v; _last_known_status := _last_known_status c;
     polling_enabled := polling_enabled c; _base_interval := _base_interval c;
     duration_minutes := duration_minutes c;
     last_irrigation_start := last_irrigation_start c;
     last_irrigation_duration_min := last_irrigation_duration_min c;
     _current_irrigation_start := _current_irrigation_start c;
     _current_irrigation_duration := _current_irrigation_duration c;
     operation_state := operation_state c;
     _state_listeners := _state_listeners c;
     update_interval := update_interval c; data := data c;
     phase_history := phase_history c; listener_calls := listener_calls c;
     published := published c |}.

Definition set__last_known_status (v : option GalconStatus) (c : Coordinator) : Coordinator :=
  {| device := device c; consecutive_failures := consecutive_failures c;
     last_successful_poll := last_successful_poll c; _last_known_status := v;
     polling_enabled := polling_enabled c; _base_interval := _base_interval c;
     duration_minutes := duration_minutes c;
     last_irrigation_start := last_irrigation_start c;
     last_irrigation_duration_min := last_irrigation_duration_min c;
     _current_irrigation_start := _current_irrigation_start c;
     _current_irrigation_duration := _current_irrigation_duration c;
     operation_state := operation_state c;
     _state_listeners := _state_listeners c;
     update_interval := update_interval c; data := data c;
     phase_history := phase_history c; listener_calls := listener_calls c;
     published := published c |}.

Definition set_polling_enabled (v : bool) (c : Coordinator) : Coordinator :=
  {| device := device c; consecutive_failures := consecutive_failures c;
     last_successful_poll := last_successful_poll c;
     _last_known_status := _last_known_status c; polling_enabled := v;
     _base_interval := _base_interval c;
     duration_minutes := duration_minutes c;
     last_irrigation_start := last_irrigation_start c;
     last_irrigation_duration_min := last_irrigation_duration_min c;
     _current_irrigation_start := _current_irrigation_start c;
     _current_irrigation_duration := _current_irrigation_duration c;
     operation_state := operation_state c;
     _state_listeners := _state_listeners c;
     update_interval := update_interval c; data := data c;
     phase_history := phase_history c; listener_calls := listener_calls c;
     published := published c |}.

Definition set_last_irrigation_start (v : option Z) (c : Coordinator) : Coordinator :=
  {| device := device c; consecutive_failures := consecutive_failures c;
     last_successful_poll := last_successful_poll c;
     _last_known_status := _last_known_status c;
     polling_enabled := polling_enabled c; _base_interval := _base_interval c;
     duration_minutes := duration_minutes c; last_irrigation_start := v;
     last_irrigation_duration_min := last_irrigation_duration_min c;
     _current_irrigation_start := _current_irrigation_start c;
     _current_irrigation_duration := _current_irrigation_duration c;
     operation_state := operation_state c;
     _state_listeners := _state_listeners c;
     update_interval := update_interval c; data := data c;
     phase_history := phase_history c; listener_calls := listener_calls c;
     published := published c |}.

Definition set_last_irrigation_duration_min (v : option Z) (c : Coordinator) : Coordinator :=
  {| device := device c; consecutive_failures := consecutive_failures c;
     last_successful_poll := last_successful_poll c;
     _last_known_status := _last_known_status c;
     polling_enabled := polling_enabled c; _base_interval := _base_interval c;
     duration_minutes := duration_minutes c;
     last_irrigation_start := last_irrigation_start c;
     last_irrigation_duration_min := v;
     _current_irrigation_start := _current_irrigation_start c;
     _current_irrigation_duration := _current_irrigation_duration c;
     operation_state := operation_state c;
     _state_listeners := _state_listeners c;
     update_interval := update_interval c; data := data c;
     phase_history := phase_history c; listener_calls := listener_calls c;
     published := published c |}.

Definition set__current_irrigation_start (v : option Z) (c : Coordinator) : Coordinator :=
  {| device := device c; consecutive_failures := consecutive_failures c;
     last_successful_poll := last_successful_poll c;
     _last_known_status := _last_known_status c;
     polling_enabled := polling_enabled c; _base_interval := _base_interval c;
     duration_minutes := duration_minutes c;
     last_irrigation_start := last_irrigation_start c;
     last_irrigation_duration_min := last_irrigation_duration_min c;
     _current_irrigation_start := v;
     _current_irrigation_duration := _current_irrigation_duration c;
     operation_state := operation_state c;
     _state_listeners := _state_listeners c;
     update_interval := update_interval c; data := data c;
     phase_history := phase_history c; listener_calls := listener_calls c;
     published := published c |}.

Definition set__current_irrigation_duration (v : Z) (c : Coordinator) : Coordinator :=
  {| device := device c; consecutive_failures := consecutive_failures c;
     last_successful_poll := last_successful_poll c;
     _last_known_status := _last_known_status c;
     polling_enabled := polling_enabled c; _base_interval := _base_interval c;
     duration_minutes := duration_minutes c;
     last_irrigation_start := last_irrigation_start c;
     last_irrigation_duration_min := last_irrigation_duration_min c;
     _current_irrigation_start := _current_irrigation_start c;
     _current_irrigation_duration := v; operation_state := operation_state c;
     _state_listeners := _state_listeners c;
     update_interval := update_interval c; data := data c;
     phase_history := phase_history c; listener_calls := listener_calls c;
     published := published c |}.

Definition set_operation_state (v : OperationState) (c : Coordinator) : Coordinator :=
  {| device := device c; consecutive_failures := consecutive_failures c;
     last_successful_poll := last_successful_poll c;
     _last_known_status := _last_known_status c;
     polling_enabled := polling_enabled c; _base_interval := _base_interval c;
     duration_minutes := duration_minutes c;
     last_irrigation_start := last_irrigation_start c;
     last_irrigation_duration_min := last_irrigation_duration_min c;
     _current_irrigation_start := _current_irrigation_start c;
     _current_irrigation_duration := _current_irrigation_duration c;
     operation_state := v; _state_listeners := _state_listeners c;
     update_interval := update_interval c; data := data c;
     phase_history := phase_history c; listener_calls := listener_calls c;
     published := published c |}.

Definition set__state_listeners (v : list Listener) (c : Coordinator) : Coordinator :=
  {| device := device c; consecutive_failures := consecutive_failures c;
     last_successful_poll := last_successful_poll c;
     _last_known_status := _last_known_status c;
     polling_enabled := polling_enabled c; _base_interval := _base_interval c;
     duration_minutes := duration_minutes c;
     last_irrigation_start := last_irrigation_start c;
     last_irrigation_duration_min := last_irrigation_duration_min c;
     _current_irrigation_start := _current_irrigation_start c;
     _current_irrigation_duration := _current_irrigation_duration c;
     operation_state := operation_state c; _state_listeners := v;
     update_interval := update_interval c; data := data c;
     phase_history := phase_history c; listener_calls := listener_calls c;
     published := published c |}.

Definition set_update_interval (v : Z) (c : Coordinator) : Coordinator :=
  {| device := device c; consecutive_failures := consecutive_failures c;
     last_successful_poll := last_successful_poll c;
     _last_known_status := _last_known_status c;
     polling_enabled := polling_enabled c; _base_interval := _base_interval c;
     duration_minutes := duration_minutes c;
     last_irrigation_start := last_irrigation_start c;
     last_irrigation_duration_min := last_irrigation_duration_min c;
     _current_irrigation_start := _current_irrigation_start c;
     _current_irrigation_duration := _current_irrigation_duration c;
     operation_state := operation_state c;
     _state_listeners := _state_listeners c; update_interval := v;
     data := data c; phase_history := phase_history c;
     listener_calls := listener_calls c; published := published c |}.

Definition set_data (v : option GalconStatus) (c : Coordinator) : Coordinator :=
  {| device := device c; consecutive_failures := consecutive_failures c;
     last_successful_poll := last_successful_poll c;
     _last_known_status := _last_known_status c;
     polling_enabled := polling_enabled c; _base_interval := _base_interval c;
     duration_minutes := duration_minutes c;
     last_irrigation_start := last_irrigation_start c;
     last_irrigation_duration_min := last_irrigation_duration_min c;
     _current_irrigation_start := _current_irrigation_start c;
     _current_irrigation_duration := _current_irrigation_duration c;
     operation_state := operation_state c;
     _state_listeners := _state_listeners c;
     update_interval := update_interval c; data := v;
     phase_history := phase_history c; listener_calls := listener_calls c;
     published := published c |}.

Definition set_phase_history (v : list OperationState) (c : Coordinator) : Coordinator :=
  {| device := device c; consecutive_failures := consecutive_failures c;
     last_successful_poll := last_successful_poll c;
     _last_known_status := _last_known_status c;
     polling_enabled := polling_enabled c; _base_interval := _base_interval c;
     duration_minutes := duration_minutes c;
     last_irrigation_start := last_irrigation_start c;
     last_irrigation_duration_min := last_irrigation_duration_min c;
     _current_irrigation_start := _current_irrigation_start c;
     _current_irrigation_duration := _current_irrigation_duration c;
     operation_state := operation_state c;
     _state_listeners := _state_listeners c;
     update_interval := update_interval c; data := data c; phase_history := v;
     listener_calls := listener_calls c; published := published c |}.

Definition set_listener_calls (v : list (Listener * OperationState)) (c : Coordinator) : Coordinator :=
  {| device := device c; consecutive_failures := consecutive_failures c;
     last_successful_poll := last_successful_poll c;
     _last_known_status := _last_known_status c;
     polling_enabled := polling_enabled c; _base_interval := _base_interval c;
     duration_minutes := duration_minutes c;
     last_irrigation_start := last_irrigation_start c;
     last_irrigation_duration_min := last_irrigation_duration_min c;
     _current_irrigation_start := _current_irrigation_start c;
     _current_irrigation_duration := _current_irrigation_duration c;
     operation_state := operation_state c;
     _state_listeners := _state_listeners c;
     update_interval := update_interval c; data := data c;
     phase_history := phase_history c; listener_calls := v;
     published := published c |}.

Definition set_published (v : list (option GalconStatus)) (c : Coordinator) : Coordinator :=
  {| device := device c; consecutive_failures := consecutive_failures c;
     last_successful_poll := last_successful_poll c;
     _last_known_status := _last_known_status c;
     polling_enabled := polling_enabled c; _base_interval := _base_interval c;
     duration_minutes := duration_minutes c;
     last_irrigation_start := last_irrigation_start c;
     last_irrigation_duration_min := last_irrigation_duration_min c;
     _current_irrigation_start := _current_irrigation_start c;
     _current_irrigation_duration := _current_irrigation_duration c;
     operation_state := operation_state c;
     _state_listeners := _state_listeners c;
     update_interval := update_interval c; data := data c;
     phase_history := phase_history c; listener_calls := listener_calls c;
     published := v |}.

Definition set_duration_minutes (v : Z) (c : Coordinator) : Coordinator :=
  {| device := device c; consecutive_failures := consecutive_failures c;
     last_successful_poll := last_successful_poll c;
     _last_known_status := _last_known_status c;
     polling_enabled := polling_enabled c; _base_interval := _base_interval c;
     duration_minutes := v;
     last_irrigation_start := last_irrigation_start c;
     last_irrigation_duration_min := last_irrigation_duration_min c;
     _current_irrigation_start := _current_irrigation_start c;
     _current_irrigation_duration := _current_irrigation_duration c;
     operation_state := operation_state c;
     _state_listeners := _state_listeners c;
     update_interval := update_interval c; data := data c;
     phase_history := phase_history c; listener_calls := listener_calls c;
     published := published c |}.

Definition set_device (v : GalconDevice) (c : Coordinator) : Coordinator :=
  {| device := v; consecutive_failures := consecutive_failures c;
     last_successful_poll := last_successful_poll c;
     _last_known_status := _last_known_status c;
     polling_enabled := polling_enabled c; _base_interval := _base_interval c;
     duration_minutes := duration_minutes c;
     last_irrigation_start := last_irrigation_start c;
     last_irrigation_duration_min := last_irrigation_duration_min c;
     _current_irrigation_start := _current_irrigation_start c;
     _current_irrigation_duration := _current_irrigation_duration c;
     operation_state := operation_state c;
     _state_listeners := _state_listeners c;
     update_interval := update_interval c; data := data c;
     phase_history := phase_history c; listener_calls := listener_calls c;
     published := published c |}.

(** The state of a coordinator call: the coordinator's attributes and the
    I/O trace of its device. *)
Definition CState : Type := Coordinator * Trace.

Definition gets {A} (f : Coordinator -> A) : M CState A :=
  fun s => (Ok (f (fst s)), s).

Definition modify (f : Coordinator -> Coordinator) : M CState unit :=
  fun s => (Ok tt, (f (fst s), snd s)).

(** A driver call made from the coordinator. *)
Definition lift_io {A} (m : M Trace A) : M CState A :=
  fun s => let (r, t) := m (snd s) in (r, (fst s, t)).

(** The closed, zeroed status the coordinator builds when it has no
    reading, over the given [raw] and [battery_level]. *)
Definition closed_status (raw : bytes) (battery : option Z) : GalconStatus :=
  {| valve_open := false;
     manual_open := false;
     hours_remaining := 0;
     minutes_remaining := 0;
     seconds_remaining := 0;
     raw := raw;
     battery_level := battery |}.

(** [self._last_known_status.raw if self._last_known_status else b""] *)
Definition carried_raw (c : Coordinator) : bytes :=
  match _last_known_status c with Some s => raw s | None => [] end.

(** [self._last_known_status.battery_level if self._last_known_status else None] *)
Definition carried_battery (c : Coordinator) : option Z :=
  match _last_known_status c with Some s => battery_level s | None => None end.

(** [GalconCoordinator.__init__]; [scan_interval or DEFAULT_SCAN_INTERVAL]
    takes the default for [None] and for [0]. *)
Definition init (device : GalconDevice) (scan_interval : option Z) : Coordinator :=
  let base := match scan_interval with
              | Some n => if n =? 0 then DEFAULT_SCAN_INTERVAL else n
              | None => DEFAULT_SCAN_INTERVAL
              end in
  {| device := device;
     consecutive_failures := 0;
     last_successful_poll := None;
     _last_known_status := None;
     polling_enabled := false;
     _base_interval := base;
     duration_minutes := 20;
     last_irrigation_start := None;
     last_irrigation_duration_min := None;
     _current_irrigation_start := None;
     _current_irrigation_duration := 0;
     operation_state := IDLE;
     _state_listeners := [];
     update_interval := base;
     data := None;
     phase_history := [];
     listener_calls := [];
     published := [] |}.

Definition register_state_listener (listener : Listener) (c : Coordinator) : Coordinator :=
  set__state_listeners (_state_listeners c ++ [listener]) c.

(** Calling every registered listener, in registration order. *)
Definition notify_listeners (c : Coordinator) : Coordinator :=
  fold_left
    (fun c listener =>
       set_listener_calls ((listener, operation_state c) :: listener_calls c) c)
    (_state_listeners c) c.

Definition _set_operation_state_on (state : OperationState) (c : Coordinator) : Coordinator :=
  notify_listeners
    (set_phase_history (state :: phase_history c) (set_operation_state state c)).

Definition reachable (c : Coordinator) : bool :=
  consecutive_failures c <? MAX_CONSECUTIVE_FAILURES.

Definition set_polling (enabled : bool) (c : Coordinator) : Coordinator :=
  let c := set_polling_enabled enabled c in
  if enabled then
    let c := set_consecutive_failures 0 c in
    set_update_interval (_base_interval c) c
  else
    let c := set_update_interval (24 * 3600) c in
    _set_operation_state_on IDLE c.

(** [DataUpdateCoordinator.async_set_updated_data]: stores the status in
    [data] and hands it to the observers. *)
Definition async_set_updated_data_on (d : option GalconStatus) (c : Coordinator) : Coordinator :=
  set_published (d :: published c) (set_data d c).

Definition _record_irrigation_end_on (c : Coordinator) : Coordinator :=
  match _current_irrigation_start c with
  | Some start =>
      let c := set_last_irrigation_start (Some start) c in
      let c := set_last_irrigation_duration_min (Some (_current_irrigation_duration c)) c in
      set__current_irrigation_start None c
  | None => c
  end.

Definition async_irrigation_ended (c : Coordinator) : Coordinator :=
  let c := _record_irrigation_end_on c in
  let c := set__last_known_status
             (Some (closed_status (carried_raw c) (carried_battery c))) c in
  let c := async_set_updated_data_on (_last_known_status c) c in
  set_polling false c.

Section Coordinator.

Variable env : Env.

Definition _set_operation_state (state : OperationState) : M CState unit :=
  modify (_set_operation_state_on state).

(** [dt_util.utcnow()] and [dt_util.now()]: the same instant. *)
Definition now : M CState Z :=
  fun s => (Ok (clock env (List.length (snd s))), s).

Definition async_set_updated_data (d : option GalconStatus) : M CState unit :=
  modify (async_set_updated_data_on d).

Definition _record_irrigation_start (duration_minutes : Z) : M CState unit :=
  t <- now ;;
  modify (set__current_irrigation_start (Some t)) ;;
  modify (set__current_irrigation_duration duration_minutes).

Definition _record_irrigation_end : M CState unit :=
  modify _record_irrigation_end_on.

Definition _async_update_data : M CState GalconStatus :=
  enabled <- gets polling_enabled ;;
  if negb enabled then
    last <- gets _last_known_status ;;
    match last with
    | Some status => ret status
    | None =>
        let synthetic := closed_status [] None in
        modify (set__last_known_status (Some synthetic)) ;;
        ret synthetic
    end
  else
    _set_operation_state SCANNING ;;
    try_except
      (dev <- gets device ;;
       status <- lift_io (get_status env dev) ;;
       modify (set_consecutive_failures 0) ;;
       t <- now ;;
       modify (set_last_successful_poll (Some t)) ;;
       modify (set__last_known_status (Some status)) ;;
       _set_operation_state IDLE ;;
       ret status)
      is_exception
      (fun err =>
         modify (fun c => set_consecutive_failures (consecutive_failures c + 1) c) ;;
         _set_operation_state IDLE ;;
         last <- gets _last_known_status ;;
         match last with
         | Some status => ret status
         | None =>
             raise (ExnFrom UpdateFailed
                      ("Cannot reach Galcon device (no cached state): "
                       ++ str_exn err) err)
         end).

Definition async_open_valve (hours minutes seconds : Z) : M CState unit :=
  _set_operation_state CONNECTING ;;
  try_except
    (_set_operation_state OPENING ;;
     dev <- gets device ;;
     real_status <- lift_io (open_valve env dev hours minutes seconds) ;;
     _set_operation_state CONFIRMED ;;
     match real_status with
     | VStatus status => modify (set__last_known_status (Some status))
     | VFalse | VNone =>
         modify (fun c =>
           set__last_known_status
             (Some {| valve_open := true;
                      manual_open := true;
                      hours_remaining := hours;
                      minutes_remaining := minutes;
                      seconds_remaining := seconds;
                      raw := carried_raw c;
                      battery_level := carried_battery c |}) c)
     end ;;
     _record_irrigation_start
       (hours * 60 + minutes + (if py_bool seconds then 1 else 0)) ;;
     last <- gets _last_known_status ;;
     async_set_updated_data last)
    is_exception
    (fun err => _set_operation_state ERROR ;; raise err).

Definition async_close_valve : M CState unit :=
  _set_operation_state CONNECTING ;;
  try_except
    (_set_operation_state CLOSING ;;
     dev <- gets device ;;
     real_status <- lift_io (close_valve env dev) ;;
     _set_operation_state CONFIRMED ;;
     _record_irrigation_end ;;
     match real_status with
     | VStatus status => modify (set__last_known_status (Some status))
     | VFalse | VNone =>
         modify (fun c =>
           set__last_known_status
             (Some (closed_status (carried_raw c) (carried_battery c))) c)
     end ;;
     last <- gets _last_known_status ;;
     async_set_updated_data last)
    is_exception
    (fun err => _set_operation_state ERROR ;; raise err).

End Coordinator.

(** ** The codec as the design describes it

    [decode] follows the wording of the design document, to be compared
    with [_parse_status]: bit 0 of bytes 0 and 1, bytes 2, 3 and 4 as they
    are, byte 5 when there is one. *)

Definition byte_at (i : nat) (data : bytes) : Z := int_of_byte (nth i data x00).

Definition decode (data : bytes) : GalconStatus :=
  if (List.length data <? 5)%nat then
    {| valve_open := false; manual_open := false;
       hours_remaining := 0; minutes_remaining := 0; seconds_remaining := 0;
       raw := data; battery_level := None |}
  else
    {| valve_open := Z.testbit (byte_at 0 data) 0;
       manual_open := Z.testbit (byte_at 1 data) 0;
       hours_remaining := byte_at 2 data;
       minutes_remaining := byte_at 3 data;
       seconds_remaining := byte_at 4 data;
       raw := data;
       battery_level := option_map int_of_byte (nth_error data 5) |}.

(** ** valve.py and sensor.py: the entities that call the coordinator *)

(** [divmod(a, b)] for a divisor that is not 0: floor division and the
    remainder of the sign of the divisor. *)
Definition divmod (a b : Z) : Z * Z := (a / b, a mod b).

(** [isinstance(err, ConnectionError)] *)
Definition is_connection_error (e : exn) : bool :=
  match exn_cls e with
  | ConnectionError => true
  | _ => false
  end.

Module Valve.

(** [GalconValve.is_closed]: [None] while no status was published. *)
Definition is_closed (c : Coordinator) : option bool :=
  match data c with
  | None => None
  | Some status => Some (negb (valve_open status))
  end.

(** [GalconValve.available] *)
Definition available (c : Coordinator) : bool := polling_enabled c.

(** [GalconValve.async_open_valve]: the configured duration in minutes
    is split into hours, minutes and seconds; a [ConnectionError] of the
    coordinator is logged and not raised again. *)
Definition async_open_valve (env : Env) : M CState unit :=
  duration <- gets duration_minutes ;;
  let (hours, remainder) := divmod (duration * 60) 3600 in
  let (minutes, seconds) := divmod remainder 60 in
  try_except
    (async_open_valve env hours minutes seconds)
    is_connection_error
    (fun err => ret tt).

(** [GalconValve.async_close_valve] *)
Definition async_close_valve (env : Env) : M CState unit :=
  try_except
    (async_close_valve env)
    is_connection_error
    (fun err => ret tt).

End Valve.

Module BatterySensor.

(** [GalconBatterySensor._handle_coordinator_update]: the new value of
    [_cached_battery] when the coordinator publishes [data]. *)
Definition _handle_coordinator_update (data : option GalconStatus)
    (_cached_battery : option Z) : option Z :=
  match data with
  | Some status =>
      match battery_level status with
      | Some level => Some level
      | None => _cached_battery
      end
  | None => _cached_battery
  end.

(** [GalconBatterySensor.native_value] *)
Definition native_value (_cached_battery : option Z) : option Z := _cached_battery.

(** [GalconBatterySensor.available] *)
Definition available (_cached_battery : option Z) : bool :=
  match _cached_battery with Some _ => true | None => false end.

(** The cached level after a sequence of published values, oldest first. *)
Definition after_updates (updates : list (option GalconStatus))
    (_cached_battery : option Z) : option Z :=
  fold_left (fun cached data => _handle_coordinator_update data cached)
    updates _cached_battery.

(** The battery levels that a sequence of published values carries. *)
Definition levels (updates : list (option GalconStatus)) : list Z :=
  flat_map
    (fun data =>
       match data with
       | Some status =>
           match battery_level status with Some level => [level] | None => [] end
       | None => []
       end)
    updates.

End BatterySensor.

(** Everything but the phase, its history and the listener calls is in
    [c'] as it is in [c]. *)
Definition untouched (c c' : Coordinator) : Prop :=
  device c' = device c /\
  _last_known_status c' = _last_known_status c /\
  data c' = data c /\ published c' = published c /\
  last_successful_poll c' = last_successful_poll c /\
  last_irrigation_start c' = last_irrigation_start c /\
  last_irrigation_duration_min c' = last_irrigation_duration_min c /\
  _current_irrigation_start c' = _current_irrigation_start c /\
  _current_irrigation_duration c' = _current_irrigation_duration c /\
  consecutive_failures c' = consecutive_failures c /\
  polling_enabled c' = polling_enabled c /\
  update_interval c' = update_interval c /\
  duration_minutes c' = duration_minutes c /\
  _state_listeners c' = _state_listeners c.

(** The three phases in which an operation of the coordinator ends. *)
Definition settled (state : OperationState) : bool :=
  match state with
  | IDLE | CONFIRMED | ERROR => true
  | CONNECTING | OPENING | CLOSING | VERIFYING | SCANNING => false
  end.

(** The states a coordinator and its device go through: from [__init__],
    by the poll cycle, the two commands, the countdown expiry, the polling
    switch, the registration of a listener, the duration set by the number
    entity and the [BLEDevice] set by the scanner. *)
Inductive Visits (env : Env) : CState -> Prop :=
| Visits_init (device : GalconDevice) (scan_interval : option Z) :
    Visits env (init device scan_interval, [])
| Visits_poll (s : CState) :
    Visits env s -> Visits env (snd (_async_update_data env s))
| Visits_open (s : CState) (hours minutes seconds : Z) :
    Visits env s ->
    Visits env (snd (async_open_valve env hours minutes seconds s))
| Visits_close (s : CState) :
    Visits env s -> Visits env (snd (async_close_valve env s))
| Visits_irrigation_ended (s : CState) :
    Visits env s -> Visits env (async_irrigation_ended (fst s), snd s)
| Visits_set_polling (s : CState) (enabled : bool) :
    Visits env s -> Visits env (set_polling enabled (fst s), snd s)
| Visits_register (s : CState) (listener : Listener) :
    Visits env s ->
    Visits env (register_state_listener listener (fst s), snd s)
| Visits_set_duration (s : CState) (minutes : Z) :
    Visits env s -> Visits env (set_duration_minutes minutes (fst s), snd s)
| Visits_set_ble_device (s : CState) (ble_device : string) :
    Visits env s ->
    Visits env
      (set_device (set_ble_device ble_device (device (fst s))) (fst s), snd s).

(** An irrigation in flight has a cached status. *)
Definition in_flight_is_cached (c : Coordinator) : Prop :=
  _current_irrigation_start c <> None -> _last_known_status c <> None.

(** What holds of the coordinator between two operations. *)
Definition well_formed (c : Coordinator) : Prop :=
  settled (operation_state c) = true /\
  0 <= consecutive_failures c /\
  (last_irrigation_start c = None <-> last_irrigation_duration_min c = None) /\
  (update_interval c = _base_interval c \/ update_interval c = 24 * 3600) /\
  Forall (fun d => d <> None) (published c) /\
  (data c <> None -> _last_known_status c <> None).

(** ** Environments and devices used in the examples *)

Module Examples.

Definition status_closed : bytes := [x00; x00; x00; x00; x00; x5a; x00].
Definition status_open : bytes := [x01; x01; x00; x14; x00; x5a; x00].

Definition dev : GalconDevice :=
  {| address := "AA:BB:CC:DD:EE:FF"; _ble_device := None |}.

(** Every call succeeds and every status read returns [status]. *)
Definition env_steady (status : bytes) : Env :=
  {| connect_outcome := fun _ => Ok true;
     disconnect_outcome := fun _ => Ok tt;
     write_outcome := fun _ _ => Ok tt;
     read_outcome := fun _ _ => Ok status;
     clock := fun n => 1000 + Z.of_nat n |}.

(** A valve that reports closed on the first read and open afterwards. *)
Definition env_opens : Env :=
  {| connect_outcome := fun _ => Ok true;
     disconnect_outcome := fun _ => Ok tt;
     write_outcome := fun _ _ => Ok tt;
     read_outcome := fun _ k => match k with
                                | O => Ok status_closed
                                | _ => Ok status_open
                                end;
     clock := fun n => 1000 + Z.of_nat n |}.

(** A peripheral that is out of range: no connection is ever made. *)
Definition env_dead : Env :=
  {| connect_outcome := fun _ => Raise (Exn BleakError "Device not found");
     disconnect_outcome := fun _ => Ok tt;
     write_outcome := fun _ _ => Ok tt;
     read_outcome := fun _ _ => Ok [];
     clock := fun n => 1000 + Z.of_nat n |}.

(** A status read that fails with an error the driver does not retry. *)
Definition env_crash : Env :=
  {| connect_outcome := fun _ => Ok true;
     disconnect_outcome := fun _ => Ok tt;
     write_outcome := fun _ _ => Ok tt;
     read_outcome := fun _ _ => Raise (Exn OtherException "unexpected");
     clock := fun n => 1000 + Z.of_nat n |}.

Definition fresh : CState := (init dev None, []).

(** The coordinator after a command to open for 20 minutes. *)
Definition watering (env : Env) : CState :=
  snd (async_open_valve env 0 20 0 fresh).

(** The coordinator with polling switched on and nothing cached. *)
Definition polling : CState := (set_polling true (init dev None), []).

End Examples.

(** ** More environments for the examples *)

Module Scenarios.

Definition sleeper (k : nat) : Result bool :=
  match k with
  | O => Raise (Exn BleakError "Device not found")
  | _ => Ok true
  end.

(** A peripheral that misses the first connection call and answers the
    next ones; its valve is closed. *)
Definition env_wakes_late : Env :=
  {| connect_outcome := sleeper;
     disconnect_outcome := fun _ => Ok tt;
     write_outcome := fun _ _ => Ok tt;
     read_outcome := fun _ _ => Ok Examples.status_closed;
     clock := fun n => 1000 + Z.of_nat n |}.

(** Connection calls that return a client that is not connected. *)
Definition env_not_live : Env :=
  {| connect_outcome := fun _ => Ok false;
     disconnect_outcome := fun _ => Ok tt;
     write_outcome := fun _ _ => Ok tt;
     read_outcome := fun _ _ => Ok Examples.status_closed;
     clock := fun n => 1000 + Z.of_nat n |}.

(** A radio whose first disconnect raises [failure] and whose next ones
    return; the valve is open. *)
Definition env_release_fails (failure : exn) : Env :=
  {| connect_outcome := fun _ => Ok true;
     disconnect_outcome := fun k => match k with
                                    | O => Raise failure
                                    | _ => Ok tt
                                    end;
     write_outcome := fun _ _ => Ok tt;
     read_outcome := fun _ _ => Ok Examples.status_open;
     clock := fun n => 1000 + Z.of_nat n |}.

(** A coordinator whose number entity is set to 90 minutes. *)
Definition ninety_minutes : Coordinator :=
  set_duration_minutes 90 (init Examples.dev None).

(** A coordinator just made, with polling off and nothing cached. *)
Definition idle : Coordinator := init Examples.dev None.

(** The coordinator and the trace after a command to open for 20 minutes
    that the valve confirmed. *)
Definition watering : Coordinator :=
  fst (snd (async_open_valve Examples.env_opens 0 20 0 (idle, []))).


(** A status of an open valve with the given battery level, if any. *)
Definition reading (battery : option Z) : option GalconStatus :=
  Some (mkStatus true false 0 10 0 [] battery).

End Scenarios.

(** ** Runs of the driver

    What the environment answers to the calls of one verify cycle, read at
    the positions the cycle uses: [w], [c] and [r] are the numbers of wake
    writes, control writes and status reads made before it. *)

(** The re-wake write returns or fails with an error the loop swallows. *)
Definition rewake_tolerated (env : Env) (w : nat) : bool :=
  match write_outcome env UUID_WAKE w with
  | Ok _ => true
  | Raise e => is_transient e
  end.

(** The status read returns a status with the expected [valve_open]. *)
Definition readback_confirms (env : Env) (expect_open : bool) (r : nat)
    : option GalconStatus :=
  match read_outcome env UUID_STATUS r with
  | Ok data =>
      match _parse_status data with
      | Ok status =>
          if Bool.eqb (valve_open status) expect_open then Some status else None
      | Raise _ => None
      end
  | Raise _ => None
  end.

(** The status read returns a status with the other [valve_open]. *)
Definition read_reports_other (env : Env) (expect_open : bool) (r : nat) : bool :=
  match read_outcome env UUID_STATUS r with
  | Ok data =>
      match _parse_status data with
      | Ok status => negb (Bool.eqb (valve_open status) expect_open)
      | Raise _ => false
      end
  | Raise _ => false
  end.

(** The readback does not match: it reports the other state, or the read
    fails with an error the loop swallows. *)
Definition readback_unconfirmed (env : Env) (expect_open : bool) (r : nat) : bool :=
  match read_outcome env UUID_STATUS r with
  | Ok _ => read_reports_other env expect_open r
  | Raise e => is_transient e
  end.

(** A cycle that writes the command and does not see it confirmed. *)
Definition cycle_unconfirmed (env : Env) (expect_open : bool) (w c r : nat) : bool :=
  is_ok (write_outcome env UUID_CONTROL c)
  && rewake_tolerated env w
  && readback_unconfirmed env expect_open r.

(** A cycle that writes the command and reads the expected state back. *)
Definition cycle_confirms (env : Env) (expect_open : bool) (w c r : nat)
    : option GalconStatus :=
  if is_ok (write_outcome env UUID_CONTROL c) && rewake_tolerated env w
  then readback_confirms env expect_open r
  else None.

(** [t'] extends the I/O of [t] by the given numbers of wake writes,
    control writes and status reads, and by no connect or disconnect. *)
Definition advances (t t' : Trace) (wakes controls reads : nat) : Prop :=
  count (is_write UUID_WAKE) t' = (count (is_write UUID_WAKE) t + wakes)%nat /\
  count (is_write UUID_CONTROL) t' = (count (is_write UUID_CONTROL) t + controls)%nat /\
  count (is_read UUID_STATUS) t' = (count (is_read UUID_STATUS) t + reads)%nat /\
  count is_connect t' = count is_connect t /\
  count is_disconnect t' = count is_disconnect t.

(** The trace after the wake-up and the first status read of a command
    started after [t]. *)
Definition probed (t : Trace) : Trace :=
  EvRead UUID_STATUS :: EvSleep WAKE_SETTLE_DELAY
  :: EvWrite UUID_WAKE WAKE_PAYLOAD :: t.

(** The device answers the wake-up and the first status read of a command
    started after [t], and reports the state the command is to change. *)
Definition command_needed (env : Env) (expect_open : bool) (t : Trace) : bool :=
  is_ok (write_outcome env UUID_WAKE (count (is_write UUID_WAKE) t))
  && read_reports_other env expect_open (count (is_read UUID_STATUS) t).

(** The first [n] verify cycles of a command started after [t] are not
    confirmed. *)
Definition cycles_unconfirmed (env : Env) (expect_open : bool) (t : Trace)
    (n : nat) : bool :=
  forallb
    (fun k =>
       cycle_unconfirmed env expect_open
         (count (is_write UUID_WAKE) t + 1 + k)
         (count (is_write UUID_CONTROL) t + k)
         (count (is_read UUID_STATUS) t + 1 + k))
    (seq 0 n).

(** The connection made after [t] is live, and the disconnect that ends
    the attempt returns. *)
Definition session_live (env : Env) (t : Trace) : bool :=
  match connect_outcome env (count is_connect t) with
  | Ok is_connected => is_connected
  | Raise _ => false
  end
  && is_ok (disconnect_outcome env (count is_disconnect t)).

(** ** What a run sends and how it uses the connection *)

(** The payloads written to characteristic [c], most recent first. *)
Fixpoint writes_to (c : Characteristic) (t : Trace) : list bytes :=
  match t with
  | [] => []
  | EvWrite c' payload :: t' =>
      if Characteristic_eqb c' c then payload :: writes_to c t'
      else writes_to c t'
  | _ :: t' => writes_to c t'
  end.

(** [t'] extends [t] by [controls] writes of [payload] to the control
    characteristic, [wakes] writes of the wake payload, [reads] status
    reads, no write to another characteristic and no connect or
    disconnect. *)
Definition footprint (payload : bytes) (t t' : Trace)
    (controls wakes reads : nat) : Prop :=
  writes_to UUID_CONTROL t' = (repeat payload controls ++ writes_to UUID_CONTROL t)%list /\
  writes_to UUID_WAKE t' = (repeat WAKE_PAYLOAD wakes ++ writes_to UUID_WAKE t)%list /\
  writes_to UUID_STATUS t' = writes_to UUID_STATUS t /\
  writes_to UUID_PIN t' = writes_to UUID_PIN t /\
  count (is_read UUID_STATUS) t' = (count (is_read UUID_STATUS) t + reads)%nat /\
  count is_connect t' = count is_connect t /\
  count is_disconnect t' = count is_disconnect t.

(** A callback that stays within [limit] command writes on every trace. *)
Definition within (payload : bytes) (limit : nat) {A} (callback : M Trace A) : Prop :=
  forall t : Trace,
    exists controls wakes reads,
      (controls <= limit)%nat /\ (wakes <= controls + 1)%nat /\
      (reads <= controls + 1)%nat /\
      footprint payload t (snd (callback t)) controls wakes reads.

(** The connection calls, among the [n] made from the [first]-th on, that
    returned a client. *)
Definition returned_connects (env : Env) (first n : nat) : nat :=
  List.length (filter (fun k => is_ok (connect_outcome env k)) (seq first n)).

(** [t'] extends [t] by a transport session of [k] connection attempts:
    [controls] writes of [payload] to the control characteristic, [wakes]
    wake writes and [reads] status reads, and one disconnect for each
    connection call that returned. *)
Definition session (env : Env) (payload : bytes) (t t' : Trace)
    (k controls wakes reads : nat) : Prop :=
  writes_to UUID_CONTROL t' = (repeat payload controls ++ writes_to UUID_CONTROL t)%list /\
  writes_to UUID_WAKE t' = (repeat WAKE_PAYLOAD wakes ++ writes_to UUID_WAKE t)%list /\
  writes_to UUID_STATUS t' = writes_to UUID_STATUS t /\
  writes_to UUID_PIN t' = writes_to UUID_PIN t /\
  count (is_read UUID_STATUS) t' = (count (is_read UUID_STATUS) t + reads)%nat /\
  count is_connect t' = (count is_connect t + k)%nat /\
  count is_disconnect t' =
    (count is_disconnect t + returned_connects env (count is_connect t) k)%nat.

(** The connection calls of an operation run after [t] and ended with
    [t']: between one and [MAX_RETRIES], and one disconnect for each call
    that returned a client. *)
Definition released (env : Env) (t t' : Trace) : Prop :=
  exists k,
    (1 <= k <= Z.to_nat MAX_RETRIES)%nat /\
    count is_connect t' = (count is_connect t + k)%nat /\
    count is_disconnect t' =
      (count is_disconnect t + returned_connects env (count is_connect t) k)%nat.

(** A command result that a caller may take as confirmation of
    [expect_open]: a status that reports it, or [False]; never [None]. *)
Definition sound_result (expect_open : bool) (r : Result CommandResult) : Prop :=
  match r with
  | Ok (VStatus status) => valve_open status = expect_open
  | Ok VFalse => True
  | Ok VNone => False
  | Raise _ => True
  end.

(** ** Runs of the coordinator

    The attributes a poll cycle and a command leave behind, and sequences
    of poll cycles. *)

Definition after_failed_poll (c : Coordinator) : Coordinator :=
  _set_operation_state_on IDLE
    (set_consecutive_failures
       (consecutive_failures (_set_operation_state_on SCANNING c) + 1)
       (_set_operation_state_on SCANNING c)).

Definition after_successful_poll (status : GalconStatus) (time : Z)
    (c : Coordinator) : Coordinator :=
  _set_operation_state_on IDLE
    (set__last_known_status (Some status)
       (set_last_successful_poll (Some time)
          (set_consecutive_failures 0 (_set_operation_state_on SCANNING c)))).

(** The status cached by a command: the one the driver returned, or the
    synthetic one built over the previous [raw] and [battery_level]. *)
Definition status_after_command (result : CommandResult) (synthetic : GalconStatus)
    : GalconStatus :=
  match result with
  | VStatus status => status
  | VFalse | VNone => synthetic
  end.

(** The status read of the poll cycle that starts in state [s] raises. *)
Definition poll_fails (env : Env) (s : CState) : bool :=
  negb (is_ok (fst (get_status env (device (fst s)) (snd s)))).

(** The state after [n] poll cycles. *)
Fixpoint poll_times (env : Env) (n : nat) (s : CState) : CState :=
  match n with
  | O => s
  | S n' => poll_times env n' (snd (_async_update_data env s))
  end.

(** The next [n] poll cycles all fail. *)
Fixpoint polls_fail (env : Env) (n : nat) (s : CState) : bool :=
  match n with
  | O => true
  | S n' => poll_fails env s && polls_fail env n' (snd (_async_update_data env s))
  end.

(** The attributes after a command whose driver call returned [result] and
    ended when the clock showed [time]. *)
Definition after_open (hours minutes seconds : Z) (result : CommandResult)
    (time : Z) (c : Coordinator) : Coordinator :=
  let c := _set_operation_state_on CONFIRMED
             (_set_operation_state_on OPENING
                (_set_operation_state_on CONNECTING c)) in
  let c := set__last_known_status
             (Some (status_after_command result
                      {| valve_open := true;
                         manual_open := true;
                         hours_remaining := hours;
                         minutes_remaining := minutes;
                         seconds_remaining := seconds;
                         raw := carried_raw c;
                         battery_level := carried_battery c |})) c in
  let c := set__current_irrigation_duration
             (hours * 60 + minutes + (if py_bool seconds then 1 else 0))
             (set__current_irrigation_start (Some time) c) in
  async_set_updated_data_on (_last_known_status c) c.

Definition after_close (result : CommandResult) (c : Coordinator) : Coordinator :=
  let c := _set_operation_state_on CONFIRMED
             (_set_operation_state_on CLOSING
                (_set_operation_state_on CONNECTING c)) in
  let c := _record_irrigation_end_on c in
  let c := set__last_known_status
             (Some (status_after_command result
                      (closed_status (carried_raw c) (carried_battery c)))) c in
  async_set_updated_data_on (_last_known_status c) c.

(** The attributes after a command whose driver call raised; [doing] is
    [OPENING] or [CLOSING]. *)
Definition after_failed_command (doing : OperationState) (c : Coordinator)
    : Coordinator :=
  _set_operation_state_on ERROR
    (_set_operation_state_on doing (_set_operation_state_on CONNECTING c)).

(** * Properties *)

Unset Implicit Arguments.

(** ** Status codec *)

Lemma bit0_of_byte (b : byte) :
  py_bool (Z.land (int_of_byte b) 1) = Z.testbit (int_of_byte b) 0.
Proof. destruct b; reflexivity. Qed.

Lemma int_of_byte_range (b : byte) : 0 <= int_of_byte b < 256.
Proof. destruct b; vm_compute; split; congruence. Qed.

Lemma parse_status_decode (data : bytes) : _parse_status data = Ok (decode data).
Proof.
  destruct data as [|b0 [|b1 [|b2 [|b3 [|b4 rest]]]]]; try reflexivity.
  unfold _parse_status, decode.
  replace (len (b0 :: b1 :: b2 :: b3 :: b4 :: rest) <? 5) with false
    by (symmetry; apply Z.ltb_ge; unfold len; simpl List.length; lia).
  replace (List.length (b0 :: b1 :: b2 :: b3 :: b4 :: rest) <? 5)%nat with false
    by (symmetry; apply Nat.ltb_ge; simpl; lia).
  replace (len (b0 :: b1 :: b2 :: b3 :: b4 :: rest) >? 1) with true
    by (symmetry; rewrite Z.gtb_ltb; apply Z.ltb_lt; unfold len; simpl List.length; lia).
  replace (len (b0 :: b1 :: b2 :: b3 :: b4 :: rest) >? 2) with true
    by (symmetry; rewrite Z.gtb_ltb; apply Z.ltb_lt; unfold len; simpl List.length; lia).
  replace (len (b0 :: b1 :: b2 :: b3 :: b4 :: rest) >? 3) with true
    by (symmetry; rewrite Z.gtb_ltb; apply Z.ltb_lt; unfold len; simpl List.length; lia).
  replace (len (b0 :: b1 :: b2 :: b3 :: b4 :: rest) >? 4) with true
    by (symmetry; rewrite Z.gtb_ltb; apply Z.ltb_lt; unfold len; simpl List.length; lia).
  unfold byte_at, getitem, STATUS_VALVE_OPEN_MASK, STATUS_MANUAL_OPEN_MASK.
  cbn [nth_error nth rbind].
  rewrite !bit0_of_byte.
  destruct rest as [|b5 rest].
  - reflexivity.
  - replace (len (b0 :: b1 :: b2 :: b3 :: b4 :: b5 :: rest) >? 5) with true
      by (symmetry; rewrite Z.gtb_ltb; apply Z.ltb_lt; unfold len; simpl List.length; lia).
    reflexivity.
Qed.

(** The bytes of a timed open command are the masked values: the
    [bytes([...])] literal of [open_valve] is always in range. *)
Lemma byte_of_masked_value (n : Z) : int_of_byte (byte_of_masked n) = Z.land n 255.
Proof.
  assert (Hrange : 0 <= Z.land n 255 < 256).
  { change 255 with (Z.ones 8). rewrite Z.land_ones by lia.
    change (2 ^ 8) with 256. apply Z.mod_pos_bound. lia. }
  unfold byte_of_masked, int_of_byte.
  destruct (Byte.of_N (Z.to_N (Z.land n 255))) as [b|] eqn:E.
  - apply Byte.to_of_N in E. rewrite E. apply Z2N.id. lia.
  - apply Byte.of_N_None_iff in E. lia.
Qed.

(** C6. [_parse_status] never raises and is the function [decode] of the
    design: a buffer shorter than 5 bytes gives the all-false, all-zero
    status with [raw] the buffer itself and no battery level; a longer one
    gives bit 0 of byte 0, bit 0 of byte 1, bytes 2, 3 and 4 as they are
    (any value from 0 to 255) and byte 5 when there is one.  In particular
    the buffer 01 00 01 05 00 decodes to open, not manual, 1:05:00, no
    battery level. *)
Theorem parse_status_total_and_decodes :
  (forall data : bytes, _parse_status data = Ok (decode data)) /\
  (forall data : bytes, (List.length data < 5)%nat ->
     decode data = mkStatus false false 0 0 0 data None) /\
  (forall (b0 b1 b2 b3 b4 : byte) (rest : bytes),
     decode (b0 :: b1 :: b2 :: b3 :: b4 :: rest) =
     mkStatus (Z.testbit (int_of_byte b0) 0) (Z.testbit (int_of_byte b1) 0)
       (int_of_byte b2) (int_of_byte b3) (int_of_byte b4)
       (b0 :: b1 :: b2 :: b3 :: b4 :: rest)
       (match rest with [] => None | b5 :: _ => Some (int_of_byte b5) end)) /\
  _parse_status [x01; x00; x01; x05; x00] =
    Ok (mkStatus true false 1 5 0 [x01; x00; x01; x05; x00] None).
Proof.
  split; [exact parse_status_decode|].
  split.
  { intros data H. unfold decode.
    apply Nat.ltb_lt in H. rewrite H. reflexivity. }
  split.
  { intros. destruct rest; reflexivity. }
  reflexivity.
Qed.

(** The short-buffer branch of C6 at the empty buffer. *)
Lemma parse_status_total_and_decodes_witness :
  decode [] = mkStatus false false 0 0 0 [] None.
Proof.
  apply (proj1 (proj2 parse_status_total_and_decodes) []).
  simpl. lia.
Defined.

(** ** Coordinator: phase changes and polling switch *)

#[local] Arguments _set_operation_state_on : simpl never.
#[local] Arguments notify_listeners : simpl never.
#[local] Arguments get_status : simpl never.
#[local] Arguments open_valve : simpl never.
#[local] Arguments close_valve : simpl never.

(** Calling the listeners only extends [listener_calls]. *)
Lemma notify_listeners_eq (c : Coordinator) :
  notify_listeners c =
  set_listener_calls
    (fold_left (fun acc l => (l, operation_state c) :: acc)
       (_state_listeners c) (listener_calls c)) c.
Proof.
  unfold notify_listeners.
  generalize (_state_listeners c) as ls.
  intro ls. revert c.
  induction ls as [|l ls IH]; intro c.
  - destruct c; reflexivity.
  - cbn [fold_left]. rewrite IH. reflexivity.
Qed.

Lemma set_operation_state_on_eq (state : OperationState) (c : Coordinator) :
  _set_operation_state_on state c =
  set_listener_calls
    (fold_left (fun acc l => (l, state) :: acc)
       (_state_listeners c) (listener_calls c))
    (set_phase_history (state :: phase_history c) (set_operation_state state c)).
Proof. unfold _set_operation_state_on. rewrite notify_listeners_eq. reflexivity. Qed.

(** C10. [set_polling(True)] resets the failure counter to 0, so the device
    is reported reachable at once, and restores the base poll interval;
    [set_polling(False)] leaves the failure counter as it is, sets the
    interval to 24 hours and the phase to Idle. *)
Theorem set_polling_effects (c : Coordinator) :
  (polling_enabled (set_polling true c) = true /\
   consecutive_failures (set_polling true c) = 0 /\
   reachable (set_polling true c) = true /\
   update_interval (set_polling true c) = _base_interval c) /\
  (polling_enabled (set_polling false c) = false /\
   consecutive_failures (set_polling false c) = consecutive_failures c /\
   update_interval (set_polling false c) = 24 * 60 * 60 /\
   operation_state (set_polling false c) = IDLE).
Proof.
  split.
  - repeat split; reflexivity.
  - unfold set_polling. rewrite set_operation_state_on_eq.
    repeat split; reflexivity.
Qed.

(** ** Coordinator: the poll cycle *)

Section PollCycle.

Variable env : Env.

(** The three ways a poll cycle runs. *)

Lemma poll_disabled (c : Coordinator) (t : Trace) :
  polling_enabled c = false ->
  _async_update_data env (c, t) =
  match _last_known_status c with
  | Some status => (Ok status, (c, t))
  | None => (Ok (closed_status [] None),
             (set__last_known_status (Some (closed_status [] None)) c, t))
  end.
Proof.
  intro H. unfold _async_update_data, bind, gets. cbn. rewrite H. cbn.
  destruct (_last_known_status c); reflexivity.
Qed.

Lemma poll_failure (c : Coordinator) (t t' : Trace) (err : exn) :
  polling_enabled c = true ->
  get_status env (device c) t = (Raise err, t') ->
  _async_update_data env (c, t) =
  (match _last_known_status c with
   | Some status => Ok status
   | None => Raise (ExnFrom UpdateFailed
                      ("Cannot reach Galcon device (no cached state): "
                       ++ str_exn err) err)
   end, (after_failed_poll c, t')).
Proof.
  intros Hen Hget.
  unfold _async_update_data, bind, gets, try_except, _set_operation_state,
    modify, lift_io. cbn. rewrite Hen. cbn.
  rewrite !set_operation_state_on_eq. cbn. rewrite Hget. cbn.
  unfold after_failed_poll. rewrite !set_operation_state_on_eq. cbn.
  destruct (_last_known_status c); reflexivity.
Qed.

Lemma poll_success (c : Coordinator) (t t' : Trace) (status : GalconStatus) :
  polling_enabled c = true ->
  get_status env (device c) t = (Ok status, t') ->
  _async_update_data env (c, t) =
  (Ok status, (after_successful_poll status (clock env (List.length t')) c, t')).
Proof.
  intros Hen Hget.
  unfold _async_update_data, bind, gets, try_except, _set_operation_state,
    modify, lift_io, now. cbn. rewrite Hen. cbn.
  rewrite !set_operation_state_on_eq. cbn. rewrite Hget. cbn.
  unfold after_successful_poll. rewrite !set_operation_state_on_eq. cbn.
  reflexivity.
Qed.

End PollCycle.

Section PollCycleProperties.

Variable env : Env.

Lemma poll_keeps_polling_enabled (s : CState) :
  polling_enabled (fst (snd (_async_update_data env s))) = polling_enabled (fst s).
Proof.
  destruct s as [c t]. cbn [fst snd].
  destruct (polling_enabled c) eqn:Hen.
  - destruct (get_status env (device c) t) as [[status|err] t'] eqn:Hget.
    + rewrite (poll_success env _ _ _ _ Hen Hget). cbn [fst snd].
      unfold after_successful_poll. rewrite !set_operation_state_on_eq.
      exact Hen.
    + rewrite (poll_failure env _ _ _ _ Hen Hget). cbn [fst snd].
      unfold after_failed_poll. rewrite !set_operation_state_on_eq.
      exact Hen.
  - rewrite (poll_disabled env _ t Hen).
    destruct (_last_known_status c); exact Hen.
Qed.

Lemma poll_counter_step (s : CState) :
  polling_enabled (fst s) = true ->
  consecutive_failures (fst (snd (_async_update_data env s))) =
  if poll_fails env s then consecutive_failures (fst s) + 1 else 0.
Proof.
  destruct s as [c t]. unfold poll_fails. cbn [fst snd]. intro Hen.
  destruct (get_status env (device c) t) as [[status|err] t'] eqn:Hget.
  - rewrite (poll_success env _ _ _ _ Hen Hget). cbn [fst snd is_ok negb].
    unfold after_successful_poll. rewrite !set_operation_state_on_eq.
    reflexivity.
  - rewrite (poll_failure env _ _ _ _ Hen Hget). cbn [fst snd is_ok negb].
    unfold after_failed_poll. rewrite !set_operation_state_on_eq.
    reflexivity.
Qed.

Lemma failed_polls_add_up (n : nat) : forall s : CState,
  polling_enabled (fst s) = true ->
  polls_fail env n s = true ->
  consecutive_failures (fst (poll_times env n s)) =
  consecutive_failures (fst s) + Z.of_nat n.
Proof.
  induction n as [|n IH]; intros s Hen Hfail.
  - cbn. lia.
  - cbn [polls_fail] in Hfail. apply andb_true_iff in Hfail as [Hnow Hlater].
    cbn [poll_times].
    rewrite IH; [| rewrite poll_keeps_polling_enabled; exact Hen | exact Hlater].
    rewrite (poll_counter_step _ Hen), Hnow. lia.
Qed.

(** C7. With polling enabled, a failed poll adds exactly 1 to
    [consecutive_failures] and a successful poll sets it to 0; [reachable]
    holds exactly when the counter is below [MAX_CONSECUTIVE_FAILURES].
    So after a success, [MAX_CONSECUTIVE_FAILURES - 1] failed polls in a
    row leave the device reachable and the next failed poll makes it
    unreachable. *)
Theorem failure_counter_and_reachability :
  (forall s : CState,
     polling_enabled (fst s) = true ->
     consecutive_failures (fst (snd (_async_update_data env s))) =
     if poll_fails env s then consecutive_failures (fst s) + 1 else 0) /\
  (forall c : Coordinator,
     reachable c = true <-> consecutive_failures c < MAX_CONSECUTIVE_FAILURES) /\
  (forall (n : nat) (s : CState),
     polling_enabled (fst s) = true ->
     consecutive_failures (fst s) = 0 ->
     polls_fail env n s = true ->
     consecutive_failures (fst (poll_times env n s)) = Z.of_nat n /\
     reachable (fst (poll_times env n s)) =
       (Z.of_nat n <? MAX_CONSECUTIVE_FAILURES)) /\
  (forall s : CState,
     polling_enabled (fst s) = true ->
     consecutive_failures (fst s) = 0 ->
     polls_fail env (Z.to_nat MAX_CONSECUTIVE_FAILURES) s = true ->
     reachable (fst (poll_times env (Z.to_nat (MAX_CONSECUTIVE_FAILURES - 1)) s)) = true /\
     reachable (fst (poll_times env (Z.to_nat MAX_CONSECUTIVE_FAILURES) s)) = false).
Proof.
  split; [exact poll_counter_step|].
  split; [intro c; unfold reachable; apply Z.ltb_lt|].
  assert (Hn : forall (n : nat) (s : CState),
     polling_enabled (fst s) = true ->
     consecutive_failures (fst s) = 0 ->
     polls_fail env n s = true ->
     consecutive_failures (fst (poll_times env n s)) = Z.of_nat n /\
     reachable (fst (poll_times env n s)) =
       (Z.of_nat n <? MAX_CONSECUTIVE_FAILURES)).
  { intros n s Hen H0 Hfail.
    pose proof (failed_polls_add_up n s Hen Hfail) as Hc.
    rewrite H0 in Hc. cbn in Hc.
    split; [exact Hc|]. unfold reachable. rewrite Hc. reflexivity. }
  split; [exact Hn|].
  intros s Hen H0 Hfail. split.
  - apply (Hn 4%nat s Hen H0).
    change (Z.to_nat MAX_CONSECUTIVE_FAILURES) with 5%nat in Hfail.
    cbn [polls_fail] in Hfail |- *.
    repeat (apply andb_true_iff in Hfail as [? Hfail]).
    repeat (apply andb_true_iff; split); auto.
  - apply (Hn 5%nat s Hen H0 Hfail).
Qed.

(** C8. With polling enabled, a poll whose status read fails adds 1 to
    the failure counter, sets the phase to Idle and leaves the cached
    status as it was; it returns the cached status when there is one and
    raises [UpdateFailed] (from the read error) when there is none.  A
    poll cycle raises in no other case. *)
Theorem failed_poll_falls_back_on_cache :
  (forall (c : Coordinator) (t t' : Trace) (err : exn),
     polling_enabled c = true ->
     get_status env (device c) t = (Raise err, t') ->
     let run := _async_update_data env (c, t) in
     consecutive_failures (fst (snd run)) = consecutive_failures c + 1 /\
     operation_state (fst (snd run)) = IDLE /\
     _last_known_status (fst (snd run)) = _last_known_status c /\
     match _last_known_status c with
     | Some cached => fst run = Ok cached
     | None => exists e, fst run = Raise e /\
                         exn_cls e = UpdateFailed /\ exn_cause e = Some err
     end) /\
  (forall (c : Coordinator) (t : Trace) (e : exn) (s' : CState),
     _async_update_data env (c, t) = (Raise e, s') ->
     polling_enabled c = true /\
     poll_fails env (c, t) = true /\
     _last_known_status c = None /\
     _last_known_status (fst s') = None).
Proof.
  split.
  - intros c t t' err Hen Hget run. subst run.
    rewrite (poll_failure env _ _ _ _ Hen Hget). cbn [fst snd].
    unfold after_failed_poll. rewrite !set_operation_state_on_eq.
    repeat split.
    destruct (_last_known_status c); [reflexivity|].
    eexists. repeat split.
  - intros c t e s' Hrun.
    destruct (polling_enabled c) eqn:Hen.
    + unfold poll_fails. cbn [fst snd].
      destruct (get_status env (device c) t) as [[status|err] t'] eqn:Hget.
      * rewrite (poll_success env _ _ _ _ Hen Hget) in Hrun. discriminate.
      * rewrite (poll_failure env _ _ _ _ Hen Hget) in Hrun.
        destruct (_last_known_status c) eqn:Hc; [discriminate|].
        injection Hrun as _ Hs. subst s'. cbn [fst].
        unfold after_failed_poll. rewrite !set_operation_state_on_eq.
        repeat split. exact Hc.
    + rewrite (poll_disabled env _ t Hen) in Hrun.
      destruct (_last_known_status c); discriminate.
Qed.

End PollCycleProperties.

(** ** Coordinator: commands *)

(** Evaluation of the attribute updates, by value so that nested updates
    stay small, and of the phase changes. *)
Ltac coord_eval :=
  cbv beta iota zeta delta
    [fst snd ret raise bind gets modify
     set_consecutive_failures set_last_successful_poll set__last_known_status
     set_polling_enabled set_last_irrigation_start
     set_last_irrigation_duration_min set__current_irrigation_start
     set__current_irrigation_duration set_operation_state
     set__state_listeners set_update_interval set_data set_phase_history
     set_listener_calls set_published set_duration_minutes set_device
     device consecutive_failures last_successful_poll _last_known_status
     polling_enabled _base_interval duration_minutes last_irrigation_start
     last_irrigation_duration_min _current_irrigation_start
     _current_irrigation_duration operation_state _state_listeners
     update_interval data phase_history listener_calls published
     async_set_updated_data_on _record_irrigation_end_on carried_raw
     carried_battery status_after_command is_exception].

Ltac coord_run :=
  coord_eval; repeat (rewrite set_operation_state_on_eq; coord_eval).

Section CommandRuns.

Variable env : Env.

Lemma open_valve_raises (c : Coordinator) (t t' : Trace) (h m sec : Z) (err : exn) :
  open_valve env (device c) h m sec t = (Raise err, t') ->
  async_open_valve env h m sec (c, t) =
  (Raise err, (after_failed_command OPENING c, t')).
Proof.
  intro Hdrv. destruct c. cbn [device] in Hdrv.
  unfold async_open_valve, try_except, _set_operation_state, lift_io,
    after_failed_command.
  coord_run. rewrite Hdrv. coord_run. reflexivity.
Qed.

Lemma open_valve_returns (c : Coordinator) (t t' : Trace) (h m sec : Z)
    (result : CommandResult) :
  open_valve env (device c) h m sec t = (Ok result, t') ->
  async_open_valve env h m sec (c, t) =
  (Ok tt, (after_open h m sec result (clock env (List.length t')) c, t')).
Proof.
  intro Hdrv. destruct c. cbn [device] in Hdrv.
  unfold async_open_valve, try_except, _set_operation_state, lift_io,
    _record_irrigation_start, now, async_set_updated_data, after_open.
  coord_run. rewrite Hdrv. coord_run.
  destruct result; reflexivity.
Qed.

Lemma close_valve_raises (c : Coordinator) (t t' : Trace) (err : exn) :
  close_valve env (device c) t = (Raise err, t') ->
  async_close_valve env (c, t) =
  (Raise err, (after_failed_command CLOSING c, t')).
Proof.
  intro Hdrv. destruct c. cbn [device] in Hdrv.
  unfold async_close_valve, try_except, _set_operation_state, lift_io,
    after_failed_command.
  coord_run. rewrite Hdrv. coord_run. reflexivity.
Qed.

Lemma close_valve_returns (c : Coordinator) (t t' : Trace)
    (result : CommandResult) :
  close_valve env (device c) t = (Ok result, t') ->
  async_close_valve env (c, t) = (Ok tt, (after_close result c, t')).
Proof.
  intro Hdrv. destruct c. cbn [device] in Hdrv.
  unfold async_close_valve, try_except, _set_operation_state, lift_io,
    _record_irrigation_end, async_set_updated_data, after_close.
  coord_run. rewrite Hdrv. coord_run.
  destruct result; destruct _current_irrigation_start0; reflexivity.
Qed.

(** The phase and the phase history that a command leaves. *)
Lemma phase_after_open (h m sec : Z) (result : CommandResult) (time : Z)
    (c : Coordinator) :
  operation_state (after_open h m sec result time c) = CONFIRMED /\
  phase_history (after_open h m sec result time c) =
    CONFIRMED :: OPENING :: CONNECTING :: phase_history c.
Proof. destruct c. unfold after_open. coord_run. split; reflexivity. Qed.

Lemma phase_after_close (result : CommandResult) (c : Coordinator) :
  operation_state (after_close result c) = CONFIRMED /\
  phase_history (after_close result c) =
    CONFIRMED :: CLOSING :: CONNECTING :: phase_history c.
Proof.
  destruct c. unfold after_close. coord_run.
  destruct _current_irrigation_start0; split; reflexivity.
Qed.

Lemma phase_after_failed_command (doing : OperationState) (c : Coordinator) :
  operation_state (after_failed_command doing c) = ERROR /\
  phase_history (after_failed_command doing c) =
    ERROR :: doing :: CONNECTING :: phase_history c.
Proof. destruct c. unfold after_failed_command. coord_run. split; reflexivity. Qed.

Lemma phase_after_poll (c : Coordinator) (t : Trace) :
  operation_state (fst (snd (_async_update_data env (c, t)))) =
    (if polling_enabled c then IDLE else operation_state c) /\
  phase_history (fst (snd (_async_update_data env (c, t)))) =
    (if polling_enabled c then IDLE :: SCANNING :: phase_history c
     else phase_history c).
Proof.
  destruct (polling_enabled c) eqn:Hen.
  - destruct (get_status env (device c) t) as [[status|err] t'] eqn:Hget.
    + rewrite (poll_success env _ _ _ _ Hen Hget). cbn [fst snd].
      unfold after_successful_poll. destruct c. coord_run.
      split; reflexivity.
    + rewrite (poll_failure env _ _ _ _ Hen Hget). cbn [fst snd].
      unfold after_failed_poll. destruct c. coord_run.
      split; reflexivity.
  - rewrite (poll_disabled env _ t Hen).
    destruct (_last_known_status c); split; reflexivity.
Qed.

(** C2, as the code has it.  A poll cycle with polling enabled goes
    Scanning, Idle and ends in Idle; with polling disabled it leaves the
    phase as it was.  A command goes Connecting, Opening (or Closing) and
    ends in Confirmed when the driver call returns, confirmed or not, and
    in Error when the driver call raises, and then it raises too.  Idle
    is not set after Confirmed. *)
Theorem phase_at_end_of_operation (c : Coordinator) (t : Trace) :
  (let after := fst (snd (_async_update_data env (c, t))) in
   operation_state after =
     (if polling_enabled c then IDLE else operation_state c) /\
   phase_history after =
     (if polling_enabled c then IDLE :: SCANNING :: phase_history c
      else phase_history c)) /\
  (forall h m sec : Z,
     let run := async_open_valve env h m sec (c, t) in
     let after := fst (snd run) in
     is_ok (fst run) = is_ok (fst (open_valve env (device c) h m sec t)) /\
     operation_state after = (if is_ok (fst run) then CONFIRMED else ERROR) /\
     phase_history after =
       (if is_ok (fst run) then CONFIRMED else ERROR)
       :: OPENING :: CONNECTING :: phase_history c) /\
  (let run := async_close_valve env (c, t) in
   let after := fst (snd run) in
   is_ok (fst run) = is_ok (fst (close_valve env (device c) t)) /\
   operation_state after = (if is_ok (fst run) then CONFIRMED else ERROR) /\
   phase_history after =
     (if is_ok (fst run) then CONFIRMED else ERROR)
     :: CLOSING :: CONNECTING :: phase_history c).
Proof.
  split; [exact (phase_after_poll c t)|].
  split.
  - intros h m sec run after. subst after run.
    destruct (open_valve env (device c) h m sec t) as [[result|err] t'] eqn:Hdrv.
    + rewrite (open_valve_returns _ _ _ _ _ _ _ Hdrv). cbn [fst snd is_ok].
      split; [reflexivity|]. apply phase_after_open.
    + rewrite (open_valve_raises _ _ _ _ _ _ _ Hdrv). cbn [fst snd is_ok].
      split; [reflexivity|]. apply phase_after_failed_command.
  - intros run after. subst after run.
    destruct (close_valve env (device c) t) as [[result|err] t'] eqn:Hdrv.
    + rewrite (close_valve_returns _ _ _ _ Hdrv). cbn [fst snd is_ok].
      split; [reflexivity|]. apply phase_after_close.
    + rewrite (close_valve_raises _ _ _ _ Hdrv). cbn [fst snd is_ok].
      split; [reflexivity|]. apply phase_after_failed_command.
Qed.

End CommandRuns.

(** C2, as stated, fails: a valve that opens on the first write is
    confirmed, the command returns, and the phase is left at Confirmed,
    which is neither Idle nor Error. *)
Lemma confirmed_open_is_left_in_confirmed :
  let run := async_open_valve Examples.env_opens 0 20 0
               (init Examples.dev None, []) in
  fst run = Ok tt /\
  ~ (operation_state (fst (snd run)) = IDLE \/
     operation_state (fst (snd run)) = ERROR).
Proof.
  vm_compute. split; [reflexivity|]. intros [H|H]; discriminate H.
Qed.

(** ** Driver: the verify loop *)

#[local] Arguments _parse_status : simpl never.

Ltac io_eval :=
  unfold wake_up, _read_status_raw, write_gatt_char, read_gatt_char, sleep,
    lift_result, connect, disconnect, when, try_except, try_finally, bind,
    ret, raise;
  cbn [count is_write is_read is_connect is_disconnect is_sleep
       Characteristic_eqb fst snd is_ok].

Lemma advances_refl (t : Trace) : advances t t 0 0 0.
Proof. unfold advances. rewrite !Nat.add_0_r. repeat split. Qed.

Lemma advances_trans (t t1 t2 : Trace) (w1 c1 r1 w2 c2 r2 : nat) :
  advances t t1 w1 c1 r1 -> advances t1 t2 w2 c2 r2 ->
  advances t t2 (w1 + w2) (c1 + c2) (r1 + r2).
Proof.
  unfold advances. intros (A1 & A2 & A3 & A4 & A5) (B1 & B2 & B3 & B4 & B5).
  repeat split; lia.
Qed.

Section VerifyLoop.

Variable env : Env.
Variable payload : bytes.
Variable expect_open : bool.

(** One cycle that is not confirmed goes on with the remaining attempts,
    after one control write, one wake write and one status read. *)
Lemma verify_cycle_unconfirmed (attempt : Z) (rest : list Z) (t : Trace) :
  cycle_unconfirmed env expect_open
    (count (is_write UUID_WAKE) t) (count (is_write UUID_CONTROL) t)
    (count (is_read UUID_STATUS) t) = true ->
  exists t1,
    _verify_loop env payload expect_open (attempt :: rest) t =
    _verify_loop env payload expect_open rest t1 /\
    advances t t1 1 1 1.
Proof.
  unfold cycle_unconfirmed, rewake_tolerated, readback_unconfirmed,
    read_reports_other.
  intro H. apply andb_true_iff in H as [H Hread].
  apply andb_true_iff in H as [Hctl Hwake].
  destruct (write_outcome env UUID_CONTROL (count (is_write UUID_CONTROL) t))
    as [[]|ec] eqn:Ec; [clear Hctl|discriminate Hctl].
  destruct (write_outcome env UUID_WAKE (count (is_write UUID_WAKE) t))
    as [[]|ew] eqn:Ew;
  destruct (read_outcome env UUID_STATUS (count (is_read UUID_STATUS) t))
    as [data|er] eqn:Er;
  try rewrite parse_status_decode in Hread;
  try apply negb_true_iff in Hread;
  cbn [_verify_loop]; io_eval; rewrite Ec, Ew; io_eval;
  try rewrite Hwake; io_eval; rewrite Er;
  try rewrite parse_status_decode; try rewrite Hread;
  (eexists; split; [reflexivity|]);
  unfold advances; io_eval; repeat split; lia.
Qed.

(** One cycle that is confirmed ends the loop at its status read. *)
Lemma verify_cycle_confirms (attempt : Z) (rest : list Z) (t : Trace)
    (status : GalconStatus) :
  cycle_confirms env expect_open
    (count (is_write UUID_WAKE) t) (count (is_write UUID_CONTROL) t)
    (count (is_read UUID_STATUS) t) = Some status ->
  exists t1,
    _verify_loop env payload expect_open (attempt :: rest) t =
    (Ok (VStatus status), EvRead UUID_STATUS :: t1) /\
    advances t (EvRead UUID_STATUS :: t1) 1 1 1 /\
    valve_open status = expect_open.
Proof.
  unfold cycle_confirms, rewake_tolerated, readback_confirms.
  destruct (write_outcome env UUID_CONTROL (count (is_write UUID_CONTROL) t))
    as [[]|ec] eqn:Ec; [|discriminate].
  destruct (write_outcome env UUID_WAKE (count (is_write UUID_WAKE) t))
    as [[]|ew] eqn:Ew; cbn [is_ok andb];
  try (destruct (is_transient ew) eqn:Hwake; [|discriminate]);
  (destruct (read_outcome env UUID_STATUS (count (is_read UUID_STATUS) t))
     as [data|er] eqn:Er; [|discriminate]);
  rewrite parse_status_decode;
  (destruct (Bool.eqb (valve_open (decode data)) expect_open) eqn:Hm;
     [|discriminate]);
  intro H; injection H as <-;
  cbn [_verify_loop]; io_eval; rewrite Ec, Ew; io_eval;
  try rewrite Hwake; io_eval; rewrite Er;
  rewrite parse_status_decode, Hm;
  (eexists; split; [reflexivity|]);
  (split; [unfold advances; io_eval; repeat split; lia
          | apply eqb_prop; exact Hm]).
Qed.

(** Attempts that are never confirmed are all used, and the loop then
    returns [False]. *)
Lemma verify_loop_exhausts (attempts : list Z) : forall t : Trace,
  (forall k, (k < List.length attempts)%nat ->
     cycle_unconfirmed env expect_open
       (count (is_write UUID_WAKE) t + k)
       (count (is_write UUID_CONTROL) t + k)
       (count (is_read UUID_STATUS) t + k) = true) ->
  exists t',
    _verify_loop env payload expect_open attempts t = (Ok VFalse, t') /\
    advances t t' (List.length attempts) (List.length attempts)
      (List.length attempts).
Proof.
  induction attempts as [|attempt rest IH]; intros t Hall.
  - exists t. split; [reflexivity | apply advances_refl].
  - destruct (verify_cycle_unconfirmed attempt rest t) as (t1 & Hstep & Hadv).
    { specialize (Hall O). rewrite !Nat.add_0_r in Hall.
      apply Hall. cbn. lia. }
    destruct (IH t1) as (t' & Hrest & Hadv').
    { intros k Hk. destruct Hadv as (A1 & A2 & A3 & _).
      rewrite A1, A2, A3.
      replace (count (is_write UUID_WAKE) t + 1 + k)%nat
        with (count (is_write UUID_WAKE) t + S k)%nat by lia.
      replace (count (is_write UUID_CONTROL) t + 1 + k)%nat
        with (count (is_write UUID_CONTROL) t + S k)%nat by lia.
      replace (count (is_read UUID_STATUS) t + 1 + k)%nat
        with (count (is_read UUID_STATUS) t + S k)%nat by lia.
      apply Hall. cbn. lia. }
    exists t'. split; [rewrite Hstep; exact Hrest|].
    exact (advances_trans _ _ _ _ _ _ _ _ _ Hadv Hadv').
Qed.

(** The first confirmed cycle ends the loop with the status it read. *)
Lemma verify_loop_confirms (before : list Z) (attempt : Z) (after : list Z)
    (status : GalconStatus) : forall t : Trace,
  (forall k, (k < List.length before)%nat ->
     cycle_unconfirmed env expect_open
       (count (is_write UUID_WAKE) t + k)
       (count (is_write UUID_CONTROL) t + k)
       (count (is_read UUID_STATUS) t + k) = true) ->
  cycle_confirms env expect_open
    (count (is_write UUID_WAKE) t + List.length before)
    (count (is_write UUID_CONTROL) t + List.length before)
    (count (is_read UUID_STATUS) t + List.length before) = Some status ->
  exists t1,
    _verify_loop env payload expect_open (before ++ attempt :: after) t =
    (Ok (VStatus status), EvRead UUID_STATUS :: t1) /\
    advances t (EvRead UUID_STATUS :: t1) (S (List.length before))
      (S (List.length before)) (S (List.length before)) /\
    valve_open status = expect_open.
Proof.
  induction before as [|b before IH]; intros t Hall Hconf.
  - cbn [List.length app] in *. rewrite !Nat.add_0_r in Hconf.
    exact (verify_cycle_confirms attempt after t status Hconf).
  - destruct (verify_cycle_unconfirmed b (before ++ attempt :: after) t)
      as (t1 & Hstep & Hadv).
    { specialize (Hall O). rewrite !Nat.add_0_r in Hall.
      apply Hall. cbn. lia. }
    destruct (IH t1) as (t2 & Hrest & Hadv' & Hopen).
    { intros k Hk. destruct Hadv as (A1 & A2 & A3 & _).
      rewrite A1, A2, A3.
      replace (count (is_write UUID_WAKE) t + 1 + k)%nat
        with (count (is_write UUID_WAKE) t + S k)%nat by lia.
      replace (count (is_write UUID_CONTROL) t + 1 + k)%nat
        with (count (is_write UUID_CONTROL) t + S k)%nat by lia.
      replace (count (is_read UUID_STATUS) t + 1 + k)%nat
        with (count (is_read UUID_STATUS) t + S k)%nat by lia.
      apply Hall. cbn. lia. }
    { destruct Hadv as (A1 & A2 & A3 & _). rewrite A1, A2, A3.
      cbn [List.length] in Hconf.
      replace (count (is_write UUID_WAKE) t + 1 + List.length before)%nat
        with (count (is_write UUID_WAKE) t + S (List.length before))%nat by lia.
      replace (count (is_write UUID_CONTROL) t + 1 + List.length before)%nat
        with (count (is_write UUID_CONTROL) t + S (List.length before))%nat by lia.
      replace (count (is_read UUID_STATUS) t + 1 + List.length before)%nat
        with (count (is_read UUID_STATUS) t + S (List.length before))%nat by lia.
      exact Hconf. }
    exists t2. split; [cbn [app]; rewrite Hstep; exact Hrest|].
    split; [|exact Hopen].
    exact (advances_trans _ _ _ _ _ _ _ _ _ Hadv Hadv').
Qed.

End VerifyLoop.

(** ** Driver: the verified command protocol *)

Section VerifiedCommand.

Variable env : Env.

Lemma verified_command_probe (payload : bytes) (expect_open : bool)
    (t : Trace) (data : bytes) :
  write_outcome env UUID_WAKE (count (is_write UUID_WAKE) t) = Ok tt ->
  read_outcome env UUID_STATUS (count (is_read UUID_STATUS) t) = Ok data ->
  _verified_command env payload expect_open t =
  if Bool.eqb (valve_open (decode data)) expect_open
  then (Ok (VStatus (decode data)), probed t)
  else _verify_loop env payload expect_open
         (range 1 (COMMAND_VERIFY_ATTEMPTS + 1)) (probed t).
Proof.
  intros Hw Hr. unfold _verified_command. io_eval.
  rewrite Hw. io_eval. rewrite Hr, parse_status_decode.
  destruct (Bool.eqb (valve_open (decode data)) expect_open); reflexivity.
Qed.

Lemma command_needed_probe (expect_open : bool) (t : Trace) :
  command_needed env expect_open t = true ->
  exists data,
    write_outcome env UUID_WAKE (count (is_write UUID_WAKE) t) = Ok tt /\
    read_outcome env UUID_STATUS (count (is_read UUID_STATUS) t) = Ok data /\
    Bool.eqb (valve_open (decode data)) expect_open = false.
Proof.
  unfold command_needed, read_reports_other. intro H.
  apply andb_true_iff in H as [Hw Hr].
  destruct (write_outcome env UUID_WAKE _) as [[]|]; [|discriminate].
  destruct (read_outcome env UUID_STATUS _) as [data|]; [|discriminate].
  rewrite parse_status_decode in Hr. apply negb_true_iff in Hr.
  exists data. repeat split. exact Hr.
Qed.

Lemma cycles_unconfirmed_at (expect_open : bool) (t : Trace) (n k : nat) :
  cycles_unconfirmed env expect_open t n = true -> (k < n)%nat ->
  cycle_unconfirmed env expect_open
    (count (is_write UUID_WAKE) (probed t) + k)
    (count (is_write UUID_CONTROL) (probed t) + k)
    (count (is_read UUID_STATUS) (probed t) + k) = true.
Proof.
  unfold cycles_unconfirmed. intros H Hk.
  rewrite forallb_forall in H. specialize (H k).
  unfold probed. io_eval.
  replace (S (count (is_write UUID_WAKE) t) + k)%nat
    with (count (is_write UUID_WAKE) t + 1 + k)%nat by lia.
  replace (S (count (is_read UUID_STATUS) t) + k)%nat
    with (count (is_read UUID_STATUS) t + 1 + k)%nat by lia.
  apply H. apply in_seq. lia.
Qed.

(** A command that is never confirmed: every attempt is used. *)
Lemma verified_command_exhausts (payload : bytes) (expect_open : bool)
    (t : Trace) :
  command_needed env expect_open t = true ->
  cycles_unconfirmed env expect_open t (Z.to_nat COMMAND_VERIFY_ATTEMPTS) = true ->
  exists t',
    _verified_command env payload expect_open t = (Ok VFalse, t') /\
    advances t t' 4 3 4.
Proof.
  intros Hneed Hcyc.
  destruct (command_needed_probe _ _ Hneed) as (data & Hw & Hr & Hm).
  rewrite (verified_command_probe payload expect_open t data Hw Hr), Hm.
  destruct (verify_loop_exhausts env payload expect_open
              (range 1 (COMMAND_VERIFY_ATTEMPTS + 1)) (probed t))
    as (t' & Hrun & Hadv).
  { intros k Hk. apply (cycles_unconfirmed_at _ _ _ _ Hcyc). exact Hk. }
  exists t'. split; [exact Hrun|].
  change (List.length (range 1 (COMMAND_VERIFY_ATTEMPTS + 1))) with 3%nat in Hadv.
  unfold advances in *. unfold probed in Hadv. revert Hadv. io_eval.
  intros (A1 & A2 & A3 & A4 & A5). repeat split; lia.
Qed.

(** A command confirmed by cycle [j] (counted from 0). *)
Lemma verified_command_confirms (payload : bytes) (expect_open : bool)
    (t : Trace) (j : nat) (status : GalconStatus) :
  command_needed env expect_open t = true ->
  (j < Z.to_nat COMMAND_VERIFY_ATTEMPTS)%nat ->
  cycles_unconfirmed env expect_open t j = true ->
  cycle_confirms env expect_open
    (count (is_write UUID_WAKE) t + 1 + j)
    (count (is_write UUID_CONTROL) t + j)
    (count (is_read UUID_STATUS) t + 1 + j) = Some status ->
  exists t1,
    _verified_command env payload expect_open t =
    (Ok (VStatus status), EvRead UUID_STATUS :: t1) /\
    advances t (EvRead UUID_STATUS :: t1) (2 + j) (1 + j) (2 + j) /\
    valve_open status = expect_open.
Proof.
  intros Hneed Hj Hcyc Hconf.
  destruct (command_needed_probe _ _ Hneed) as (data & Hw & Hr & Hm).
  rewrite (verified_command_probe payload expect_open t data Hw Hr), Hm.
  assert (Hsplit : exists before attempt after,
             range 1 (COMMAND_VERIFY_ATTEMPTS + 1) = (before ++ attempt :: after)%list /\
             List.length before = j).
  { change (range 1 (COMMAND_VERIFY_ATTEMPTS + 1)) with [1; 2; 3].
    change (Z.to_nat COMMAND_VERIFY_ATTEMPTS) with 3%nat in Hj.
    destruct j as [|[|[|j]]]; [| | |lia].
    - exists [], 1, [2; 3]. split; reflexivity.
    - exists [1], 2, [3]. split; reflexivity.
    - exists [1; 2], 3, []. split; reflexivity. }
  destruct Hsplit as (before & attempt & after & Hrange & Hlen).
  rewrite Hrange.
  destruct (verify_loop_confirms env payload expect_open before attempt after
              status (probed t)) as (t1 & Hrun & Hadv & Hopen).
  { intros k Hk. apply (cycles_unconfirmed_at _ _ _ _ Hcyc). lia. }
  { rewrite Hlen. unfold probed. io_eval.
    replace (S (count (is_write UUID_WAKE) t) + j)%nat
      with (count (is_write UUID_WAKE) t + 1 + j)%nat by lia.
    replace (S (count (is_read UUID_STATUS) t) + j)%nat
      with (count (is_read UUID_STATUS) t + 1 + j)%nat by lia.
    exact Hconf. }
  exists t1. split; [exact Hrun|]. split; [|exact Hopen].
  rewrite Hlen in Hadv.
  unfold advances in *. unfold probed in Hadv. revert Hadv. io_eval.
  intros (A1 & A2 & A3 & A4 & A5). repeat split; lia.
Qed.

(** C4. When the device reports the state the command is to change and
    no readback matches [expect_open] (each reports the other state or
    fails with a transient error, the command writes being accepted),
    the protocol makes exactly [COMMAND_VERIFY_ATTEMPTS] control writes,
    each followed by one status read, and then returns the unconfirmed
    signal [False] without raising.  When the readback of some cycle
    matches, the loop ends at that read, with no further write, and
    returns the status it read. *)
Theorem verify_bound (payload : bytes) (expect_open : bool) (t : Trace) :
  command_needed env expect_open t = true ->
  (cycles_unconfirmed env expect_open t (Z.to_nat COMMAND_VERIFY_ATTEMPTS) = true ->
   exists t',
     _verified_command env payload expect_open t = (Ok VFalse, t') /\
     count (is_write UUID_CONTROL) t' =
       (count (is_write UUID_CONTROL) t + Z.to_nat COMMAND_VERIFY_ATTEMPTS)%nat /\
     count (is_read UUID_STATUS) t' =
       (count (is_read UUID_STATUS) t + 1 + Z.to_nat COMMAND_VERIFY_ATTEMPTS)%nat) /\
  (forall (j : nat) (status : GalconStatus),
     (j < Z.to_nat COMMAND_VERIFY_ATTEMPTS)%nat ->
     cycles_unconfirmed env expect_open t j = true ->
     cycle_confirms env expect_open
       (count (is_write UUID_WAKE) t + 1 + j)
       (count (is_write UUID_CONTROL) t + j)
       (count (is_read UUID_STATUS) t + 1 + j) = Some status ->
     exists t1,
       _verified_command env payload expect_open t =
         (Ok (VStatus status), EvRead UUID_STATUS :: t1) /\
       valve_open status = expect_open /\
       count (is_write UUID_CONTROL) (EvRead UUID_STATUS :: t1) =
         (count (is_write UUID_CONTROL) t + (j + 1))%nat /\
       count (is_read UUID_STATUS) (EvRead UUID_STATUS :: t1) =
         (count (is_read UUID_STATUS) t + 1 + (j + 1))%nat).
Proof.
  intro Hneed. split.
  - intro Hcyc.
    destruct (verified_command_exhausts payload expect_open t Hneed Hcyc)
      as (t' & Hrun & A1 & A2 & A3 & _).
    exists t'. split; [exact Hrun|].
    change (Z.to_nat COMMAND_VERIFY_ATTEMPTS) with 3%nat. split; lia.
  - intros j status Hj Hcyc Hconf.
    destruct (verified_command_confirms payload expect_open t j status
                Hneed Hj Hcyc Hconf) as (t1 & Hrun & (A1 & A2 & A3 & _) & Hopen).
    exists t1. split; [exact Hrun|]. split; [exact Hopen|]. split; lia.
Qed.

End VerifiedCommand.

(** ** Driver: the transport executor *)

Section Execute.

Variable env : Env.
Variable self : GalconDevice.
Variable A : Type.
Variable callback : M Trace A.

(** An attempt whose connection call raises a transient error: back off
    unless it was the last attempt, and go on with the rest. *)
Lemma execute_attempt_connect_fails (attempt : Z) (rest : list Z)
    (last_error : option exn) (t : Trace) (e : exn) :
  connect_outcome env (count is_connect t) = Raise e ->
  is_transient e = true ->
  _execute_loop env self callback (attempt :: rest) last_error t =
  _execute_loop env self callback rest (Some e)
    (if attempt <? MAX_RETRIES
     then EvSleep (2 * inject_Z attempt) :: EvConnect (has_ble_device self) :: t
     else EvConnect (has_ble_device self) :: t).
Proof.
  intros Hc He. cbn [_execute_loop]. io_eval. rewrite Hc, He.
  destruct (attempt <? MAX_RETRIES); reflexivity.
Qed.

(** An attempt on a live connection whose callback returns. *)
Lemma execute_attempt_returns (attempt : Z) (rest : list Z)
    (last_error : option exn) (t t1 : Trace) (a : A) :
  connect_outcome env (count is_connect t) = Ok true ->
  callback (EvConnect (has_ble_device self) :: t) = (Ok a, t1) ->
  disconnect_outcome env (count is_disconnect t1) = Ok tt ->
  _execute_loop env self callback (attempt :: rest) last_error t =
  (Ok a, EvDisconnect :: t1).
Proof.
  intros Hc Hcb Hd. cbn [_execute_loop]. io_eval.
  rewrite Hc. cbn [negb]. rewrite Hcb, Hd. reflexivity.
Qed.

(** An attempt on a live connection whose callback raises an error that
    is not transient. *)
Lemma execute_attempt_propagates (attempt : Z) (rest : list Z)
    (last_error : option exn) (t t1 : Trace) (e : exn) :
  connect_outcome env (count is_connect t) = Ok true ->
  callback (EvConnect (has_ble_device self) :: t) = (Raise e, t1) ->
  is_transient e = false ->
  disconnect_outcome env (count is_disconnect t1) = Ok tt ->
  _execute_loop env self callback (attempt :: rest) last_error t =
  (Raise e, EvDisconnect :: t1).
Proof.
  intros Hc Hcb He Hd. cbn [_execute_loop]. io_eval.
  rewrite Hc. cbn [negb]. rewrite Hcb, Hd, He. reflexivity.
Qed.

(** C5. When each of the [MAX_RETRIES] = 3 connection attempts fails
    with a transient error, [_execute] makes exactly those three
    attempts, sleeps [2.0 * attempt] seconds after the first and the
    second and not after the third, and raises a [ConnectionError] whose
    message holds the address and the text of the last error.  An error
    of the callback that is not transient is raised at once, on whichever
    attempt it occurs: the connection is released and no attempt follows. *)
Theorem retry_bound :
  (forall (t : Trace) (e1 e2 e3 : exn),
     connect_outcome env (count is_connect t) = Raise e1 ->
     connect_outcome env (count is_connect t + 1) = Raise e2 ->
     connect_outcome env (count is_connect t + 2) = Raise e3 ->
     is_transient e1 = true -> is_transient e2 = true ->
     is_transient e3 = true ->
     _execute env self callback t =
     (Raise (Exn ConnectionError
               ("Failed to communicate with Galcon device " ++ address self
                ++ " after 3 attempts: " ++ str_exn e3)),
      EvConnect (has_ble_device self)
      :: EvSleep (2 * inject_Z 2) :: EvConnect (has_ble_device self)
      :: EvSleep (2 * inject_Z 1) :: EvConnect (has_ble_device self)
      :: t)) /\
  (forall (t t1 : Trace) (e : exn),
     connect_outcome env (count is_connect t) = Ok true ->
     callback (EvConnect (has_ble_device self) :: t) = (Raise e, t1) ->
     is_transient e = false ->
     disconnect_outcome env (count is_disconnect t1) = Ok tt ->
     _execute env self callback t = (Raise e, EvDisconnect :: t1)) /\
  (forall (attempt : Z) (rest : list Z) (last_error : option exn)
          (t t1 : Trace) (e : exn),
     connect_outcome env (count is_connect t) = Ok true ->
     callback (EvConnect (has_ble_device self) :: t) = (Raise e, t1) ->
     is_transient e = false ->
     disconnect_outcome env (count is_disconnect t1) = Ok tt ->
     _execute_loop env self callback (attempt :: rest) last_error t =
       (Raise e, EvDisconnect :: t1)).
Proof.
  split; [|split].
  - intros t e1 e2 e3 H1 H2 H3 T1 T2 T3.
    unfold _execute. change (range 1 (MAX_RETRIES + 1)) with [1; 2; 3].
    rewrite (execute_attempt_connect_fails 1 _ _ t e1 H1 T1).
    change (1 <? MAX_RETRIES) with true. cbv iota.
    rewrite (execute_attempt_connect_fails 2 _ _ _ e2).
    2:{ io_eval. rewrite <- H2. f_equal. lia. }
    2:{ exact T2. }
    change (2 <? MAX_RETRIES) with true. cbv iota.
    rewrite (execute_attempt_connect_fails 3 _ _ _ e3).
    2:{ io_eval. rewrite <- H3. f_equal. lia. }
    2:{ exact T3. }
    reflexivity.
  - intros t t1 e Hc Hcb He Hd.
    unfold _execute. change (range 1 (MAX_RETRIES + 1)) with [1; 2; 3].
    exact (execute_attempt_propagates 1 [2; 3] None t t1 e Hc Hcb He Hd).
  - exact execute_attempt_propagates.
Qed.

End Execute.

(** ** Driver: the valve commands *)

Section ValveCommands.

Variable env : Env.
Variable self : GalconDevice.

Lemma session_live_inv (t : Trace) :
  session_live env t = true ->
  connect_outcome env (count is_connect t) = Ok true /\
  disconnect_outcome env (count is_disconnect t) = Ok tt.
Proof.
  unfold session_live. intro H. apply andb_true_iff in H as [Hc Hd].
  destruct (connect_outcome env _) as [[]|]; try discriminate.
  destruct (disconnect_outcome env _) as [[]|]; try discriminate.
  split; reflexivity.
Qed.

(** A command whose callback returns on the first connection. *)
Lemma command_returns (payload : bytes) (expect_open : bool) (t t1 : Trace)
    (result : CommandResult) (w c r : nat) :
  session_live env t = true ->
  _verified_command env payload expect_open (EvConnect (has_ble_device self) :: t)
    = (Ok result, t1) ->
  advances (EvConnect (has_ble_device self) :: t) t1 w c r ->
  _execute env self (result <- _verified_command env payload expect_open ;; ret result) t
    = (Ok result, EvDisconnect :: t1).
Proof.
  intros Hlive Hrun (_ & _ & _ & _ & Hd).
  destruct (session_live_inv t Hlive) as [Hconn Hdisc].
  unfold _execute. change (range 1 (MAX_RETRIES + 1)) with [1; 2; 3].
  apply execute_attempt_returns.
  - exact Hconn.
  - unfold bind, ret. rewrite Hrun. reflexivity.
  - rewrite Hd. exact Hdisc.
Qed.

(** C3. When the first status read of a command already reports the
    state the command asks for, the protocol returns the status of that
    read and writes nothing to the control characteristic; so do
    [open_valve] on a valve that reports open and [close_valve] on one
    that reports closed, on a live connection. *)
Theorem already_in_state_sends_nothing (t : Trace) (data : bytes) :
  write_outcome env UUID_WAKE (count (is_write UUID_WAKE) t) = Ok tt ->
  read_outcome env UUID_STATUS (count (is_read UUID_STATUS) t) = Ok data ->
  (forall (payload : bytes) (expect_open : bool),
     valve_open (decode data) = expect_open ->
     _verified_command env payload expect_open t =
       (Ok (VStatus (decode data)), probed t) /\
     count (is_write UUID_CONTROL) (probed t) = count (is_write UUID_CONTROL) t) /\
  (forall hours minutes seconds : Z,
     session_live env t = true ->
     valve_open (decode data) = true ->
     exists t',
       open_valve env self hours minutes seconds t =
         (Ok (VStatus (decode data)), t') /\
       count (is_write UUID_CONTROL) t' = count (is_write UUID_CONTROL) t) /\
  (session_live env t = true ->
   valve_open (decode data) = false ->
   exists t',
     close_valve env self t = (Ok (VStatus (decode data)), t') /\
     count (is_write UUID_CONTROL) t' = count (is_write UUID_CONTROL) t).
Proof.
  intros Hw Hr.
  assert (Hcmd : forall payload expect_open t0,
             write_outcome env UUID_WAKE (count (is_write UUID_WAKE) t0) = Ok tt ->
             read_outcome env UUID_STATUS (count (is_read UUID_STATUS) t0) = Ok data ->
             valve_open (decode data) = expect_open ->
             _verified_command env payload expect_open t0 =
             (Ok (VStatus (decode data)), probed t0)).
  { intros payload expect_open t0 Hw0 Hr0 Hv.
    rewrite (verified_command_probe env payload expect_open t0 data Hw0 Hr0).
    rewrite Hv, eqb_reflx. reflexivity. }
  assert (Hadv : forall t0, advances t0 (probed t0) 1 0 1).
  { intro t0. unfold advances, probed. io_eval. repeat split; lia. }
  split; [|split].
  - intros payload expect_open Hv. split.
    + exact (Hcmd payload expect_open t Hw Hr Hv).
    + reflexivity.
  - intros hours minutes seconds Hlive Hv.
    exists (EvDisconnect :: probed (EvConnect (has_ble_device self) :: t)).
    split; [|reflexivity].
    unfold open_valve, _open.
    apply (command_returns _ _ _ _ _ 1 0 1 Hlive); [|apply Hadv].
    apply Hcmd; [exact Hw | exact Hr | exact Hv].
  - intros Hlive Hv.
    exists (EvDisconnect :: probed (EvConnect (has_ble_device self) :: t)).
    split; [|reflexivity].
    unfold close_valve, _close.
    apply (command_returns _ _ _ _ _ 1 0 1 Hlive); [|apply Hadv].
    apply Hcmd; [exact Hw | exact Hr | exact Hv].
Qed.

(** C1, as the code has it.  On a live connection, a command that is
    sent and never confirmed makes [open_valve] and [close_valve] return
    Python's [False]: they do not raise and do not return a status, but
    the value is not [None]. *)
Theorem unconfirmed_command_returns_False (t : Trace) :
  session_live env t = true ->
  (forall hours minutes seconds : Z,
     command_needed env true t = true ->
     cycles_unconfirmed env true t (Z.to_nat COMMAND_VERIFY_ATTEMPTS) = true ->
     fst (open_valve env self hours minutes seconds t) = Ok VFalse) /\
  (command_needed env false t = true ->
   cycles_unconfirmed env false t (Z.to_nat COMMAND_VERIFY_ATTEMPTS) = true ->
   fst (close_valve env self t) = Ok VFalse) /\
  Ok VFalse <> Ok VNone.
Proof.
  intro Hlive.
  assert (Hcmd : forall payload expect_open,
             command_needed env expect_open t = true ->
             cycles_unconfirmed env expect_open t
               (Z.to_nat COMMAND_VERIFY_ATTEMPTS) = true ->
             fst (_execute env self
                    (result <- _verified_command env payload expect_open ;;
                     ret result) t) = Ok VFalse).
  { intros payload expect_open Hneed Hcyc.
    destruct (verified_command_exhausts env payload expect_open
                (EvConnect (has_ble_device self) :: t))
      as (t' & Hrun & Hadv); [exact Hneed | exact Hcyc |].
    rewrite (command_returns _ _ _ _ _ _ _ _ Hlive Hrun Hadv). reflexivity. }
  split; [|split].
  - intros hours minutes seconds Hneed Hcyc.
    exact (Hcmd (open_payload hours minutes seconds) true Hneed Hcyc).
  - intros Hneed Hcyc. exact (Hcmd CMD_CLOSE_VALVE false Hneed Hcyc).
  - discriminate.
Qed.

End ValveCommands.

(** ** Coordinator: an irrigation in flight has a cached status *)

Lemma in_flight_cached_invariant (env : Env) (s : CState) :
  Visits env s -> in_flight_is_cached (fst s).
Proof.
  unfold in_flight_is_cached.
  induction 1 as [dev scan | s _ IH | s h m sec _ IH | s _ IH | s _ IH
                 | s enabled _ IH | s listener _ IH | s minutes _ IH
                 | s ble _ IH]; cbn [fst snd].
  - intro H. exfalso. apply H. reflexivity.
  - destruct s as [c t]. cbn [fst] in IH.
    destruct (polling_enabled c) eqn:Hen.
    + destruct (get_status env (device c) t) as [[status|err] t'] eqn:Hget.
      * rewrite (poll_success env _ _ _ _ Hen Hget). cbn [fst snd].
        unfold after_successful_poll. destruct c. coord_run. discriminate.
      * rewrite (poll_failure env _ _ _ _ Hen Hget). cbn [fst snd].
        unfold after_failed_poll. destruct c. revert IH. coord_run. auto.
    + rewrite (poll_disabled env _ t Hen).
      destruct (_last_known_status c) eqn:Hc; cbn [fst snd].
      * rewrite Hc. discriminate.
      * destruct c. coord_run. discriminate.
  - destruct s as [c t]. cbn [fst] in IH.
    destruct (open_valve env (device c) h m sec t) as [[result|err] t'] eqn:Hdrv.
    + rewrite (open_valve_returns _ _ _ _ _ _ _ _ Hdrv). cbn [fst snd].
      unfold after_open. destruct c. coord_run. discriminate.
    + rewrite (open_valve_raises _ _ _ _ _ _ _ _ Hdrv). cbn [fst snd].
      unfold after_failed_command. destruct c. revert IH. coord_run. auto.
  - destruct s as [c t]. cbn [fst] in IH.
    destruct (close_valve env (device c) t) as [[result|err] t'] eqn:Hdrv.
    + rewrite (close_valve_returns _ _ _ _ _ Hdrv). cbn [fst snd].
      unfold after_close. destruct c. coord_run. discriminate.
    + rewrite (close_valve_raises _ _ _ _ _ Hdrv). cbn [fst snd].
      unfold after_failed_command. destruct c. revert IH. coord_run. auto.
  - destruct s as [c t]. cbn [fst] in *.
    unfold async_irrigation_ended, set_polling. destruct c. coord_run.
    discriminate.
  - destruct s as [c t]. cbn [fst] in *.
    unfold set_polling. destruct c, enabled; revert IH; coord_run; auto.
  - destruct s as [c t]. cbn [fst] in *.
    unfold register_state_listener. destruct c. revert IH. coord_run. auto.
  - destruct s as [c t]. cbn [fst] in *. destruct c. revert IH. coord_run. auto.
  - destruct s as [c t]. cbn [fst] in *. destruct c. revert IH. coord_run. auto.
Qed.

(** ** Coordinator: countdown expiry *)

Lemma irrigation_ended_fields (c : Coordinator) (start : Z) :
  _current_irrigation_start c = Some start ->
  let c' := async_irrigation_ended c in
  last_irrigation_start c' = Some start /\
  last_irrigation_duration_min c' = Some (_current_irrigation_duration c) /\
  _current_irrigation_start c' = None /\
  _last_known_status c' =
    Some (closed_status (carried_raw c) (carried_battery c)) /\
  data c' = _last_known_status c' /\
  published c' = _last_known_status c' :: published c /\
  polling_enabled c' = false.
Proof.
  intros Hstart c'. subst c'.
  unfold async_irrigation_ended, set_polling.
  destruct c. revert Hstart. coord_run. intros ->. coord_run.
  repeat split.
Qed.

(** C9. When the countdown expires while an irrigation is in flight, the
    in-flight record becomes the last record (start and duration) and the
    in-flight start is cleared; a status was cached before, and the cached
    status becomes the closed, zeroed status that carries the [raw] bytes
    and the [battery_level] of that previous status; it is published, and
    polling is switched off. *)
Theorem irrigation_ended_effects (env : Env) (s : CState) (start : Z) :
  Visits env s ->
  _current_irrigation_start (fst s) = Some start ->
  let c' := async_irrigation_ended (fst s) in
  last_irrigation_start c' = Some start /\
  last_irrigation_duration_min c' = Some (_current_irrigation_duration (fst s)) /\
  _current_irrigation_start c' = None /\
  (exists previous,
     _last_known_status (fst s) = Some previous /\
     _last_known_status c' =
       Some (mkStatus false false 0 0 0 (raw previous) (battery_level previous)) /\
     data c' = _last_known_status c' /\
     published c' = _last_known_status c' :: published (fst s)) /\
  polling_enabled c' = false.
Proof.
  intros Hreach Hstart c'.
  destruct (irrigation_ended_fields (fst s) start Hstart)
    as (H1 & H2 & H3 & H4 & H5 & H6 & H7).
  fold c' in H1, H2, H3, H4, H5, H6, H7.
  repeat (split; [assumption|]).
  split; [|assumption].
  pose proof (in_flight_cached_invariant env s Hreach) as Hinv.
  unfold in_flight_is_cached in Hinv.
  destruct (_last_known_status (fst s)) as [previous|] eqn:Hprev.
  - exists previous. split; [reflexivity|].
    split; [|split; assumption].
    rewrite H4. unfold carried_raw, carried_battery. rewrite Hprev. reflexivity.
  - exfalso. apply Hinv; [rewrite Hstart; discriminate | reflexivity].
Qed.

(** ** Instances at the example devices *)

(** C9 after an open command that the valve confirmed: the 20 minutes of
    the in-flight record become the last duration. *)
Lemma irrigation_ended_effects_witness :
  last_irrigation_duration_min
    (async_irrigation_ended (fst (Examples.watering Examples.env_opens)))
  = Some 20.
Proof.
  refine (proj1 (proj2 (irrigation_ended_effects Examples.env_opens
                          (Examples.watering Examples.env_opens) 1010 _ _))).
  - apply Visits_open, Visits_init.
  - vm_compute. reflexivity.
Defined.

(** C1 at a valve that stays closed. *)
Lemma unconfirmed_command_returns_False_witness :
  fst (open_valve (Examples.env_steady Examples.status_closed) Examples.dev
         0 20 0 []) = Ok VFalse.
Proof.
  refine (proj1 (unconfirmed_command_returns_False
                   (Examples.env_steady Examples.status_closed) Examples.dev
                   [] _) 0 20 0 _ _); vm_compute; reflexivity.
Defined.

(** C3 at a valve that is open already. *)
Lemma already_in_state_sends_nothing_witness :
  exists t',
    open_valve (Examples.env_steady Examples.status_open) Examples.dev 0 20 0 []
    = (Ok (VStatus (decode Examples.status_open)), t') /\
    count (is_write UUID_CONTROL) t' = count (is_write UUID_CONTROL) [].
Proof.
  refine (proj1 (proj2 (already_in_state_sends_nothing
                          (Examples.env_steady Examples.status_open)
                          Examples.dev [] Examples.status_open _ _))
            0 20 0 _ _); vm_compute; reflexivity.
Defined.

(** C4 at a valve that stays closed, and at one that opens on the first
    write. *)
Lemma verify_bound_witness :
  (exists t',
     _verified_command (Examples.env_steady Examples.status_closed)
       CMD_OPEN_VALVE true [] = (Ok VFalse, t') /\
     count (is_write UUID_CONTROL) t' = 3%nat /\
     count (is_read UUID_STATUS) t' = 4%nat) /\
  (exists t1,
     _verified_command Examples.env_opens CMD_OPEN_VALVE true [] =
       (Ok (VStatus (decode Examples.status_open)), EvRead UUID_STATUS :: t1) /\
     valve_open (decode Examples.status_open) = true /\
     count (is_write UUID_CONTROL) (EvRead UUID_STATUS :: t1) = 1%nat /\
     count (is_read UUID_STATUS) (EvRead UUID_STATUS :: t1) = 2%nat).
Proof.
  split.
  - refine (proj1 (verify_bound (Examples.env_steady Examples.status_closed)
                     CMD_OPEN_VALVE true [] _) _); vm_compute; reflexivity.
  - refine (proj2 (verify_bound Examples.env_opens CMD_OPEN_VALVE true [] _)
              0%nat (decode Examples.status_open) _ _ _).
    + vm_compute. reflexivity.
    + vm_compute. lia.
    + vm_compute. reflexivity.
    + vm_compute. reflexivity.
Defined.

(** C5 at a peripheral that is out of range, and at a status read that
    fails with an error that is not transient. *)
Lemma retry_bound_witness :
  get_status Examples.env_dead Examples.dev [] =
    (Raise (Exn ConnectionError
              "Failed to communicate with Galcon device AA:BB:CC:DD:EE:FF after 3 attempts: Device not found"),
     [EvConnect false; EvSleep 4; EvConnect false; EvSleep 2; EvConnect false]) /\
  get_status Examples.env_crash Examples.dev [] =
    (Raise (Exn OtherException "unexpected"),
     [EvDisconnect; EvRead UUID_STATUS; EvSleep 1;
      EvWrite UUID_WAKE WAKE_PAYLOAD; EvConnect false]).
Proof.
  split.
  - refine (proj1 (retry_bound Examples.env_dead Examples.dev GalconStatus
                     (wake_up Examples.env_dead ;;
                      _read_status_raw Examples.env_dead))
              [] (Exn BleakError "Device not found")
              (Exn BleakError "Device not found")
              (Exn BleakError "Device not found") _ _ _ _ _ _);
      reflexivity.
  - refine (proj1 (proj2 (retry_bound Examples.env_crash Examples.dev
                            GalconStatus
                            (wake_up Examples.env_crash ;;
                             _read_status_raw Examples.env_crash)))
              [] _ (Exn OtherException "unexpected") _ _ _ _);
      reflexivity.
Defined.

(** C7 at a peripheral that is out of range: reachable after four failed
    polls, unreachable after the fifth. *)
Lemma failure_counter_and_reachability_witness :
  reachable (fst (poll_times Examples.env_dead 4 Examples.polling)) = true /\
  reachable (fst (poll_times Examples.env_dead 5 Examples.polling)) = false.
Proof.
  refine (proj2 (proj2 (proj2 (failure_counter_and_reachability
                                 Examples.env_dead)))
            Examples.polling _ _ _); vm_compute; reflexivity.
Defined.

(** C8 at a peripheral that is out of range and nothing cached: the poll
    counts the failure and raises. *)
Lemma failed_poll_falls_back_on_cache_witness :
  consecutive_failures
    (fst (snd (_async_update_data Examples.env_dead Examples.polling))) = 1.
Proof.
  refine (proj1 (proj1 (failed_poll_falls_back_on_cache Examples.env_dead)
                   (fst Examples.polling) [] _ _ _ _)).
  - reflexivity.
  - vm_compute. reflexivity.
Defined.

(** * Further properties of the driver *)

(** ** What the verified command protocol sends, whatever the device does *)

Lemma footprint_refl (payload : bytes) (t : Trace) : footprint payload t t 0 0 0.
Proof. unfold footprint. cbn [repeat app]. rewrite Nat.add_0_r. repeat split. Qed.

Lemma footprint_trans (payload : bytes) (t t1 t2 : Trace)
    (c1 w1 r1 c2 w2 r2 : nat) :
  footprint payload t t1 c1 w1 r1 -> footprint payload t1 t2 c2 w2 r2 ->
  footprint payload t t2 (c2 + c1) (w2 + w1) (r1 + r2).
Proof.
  unfold footprint.
  intros (A1 & A2 & A3 & A4 & A5 & A6 & A7) (B1 & B2 & B3 & B4 & B5 & B6 & B7).
  rewrite B1, B2, B3, B4, B5, B6, B7, A1, A2, A3, A4, A5, A6, A7.
  rewrite !repeat_app, <- !app_assoc. repeat split. lia.
Qed.

Ltac footprint_eval :=
  unfold footprint;
  cbn [writes_to count is_write is_read is_connect is_disconnect
       Characteristic_eqb repeat app].

Ltac footprint_solve :=
  footprint_eval; rewrite ?Nat.add_0_r; repeat split; try lia.

Section Footprint.

Variable env : Env.
Variable payload : bytes.
Variable expect_open : bool.

(** One verify cycle: it raises, or returns a status that reports the
    expected state, or goes on with the remaining attempts; in each case
    after exactly one command write, at most one wake write and at most one
    status read. *)
Lemma verify_cycle_footprint (attempt : Z) (rest : list Z) (t : Trace) :
  exists t1 w r,
    (w <= 1)%nat /\ (r <= 1)%nat /\ footprint payload t t1 1 w r /\
    ((exists e, _verify_loop env payload expect_open (attempt :: rest) t
                = (Raise e, t1)) \/
     (exists status,
        _verify_loop env payload expect_open (attempt :: rest) t
        = (Ok (VStatus status), t1) /\ valve_open status = expect_open) \/
     _verify_loop env payload expect_open (attempt :: rest) t
     = _verify_loop env payload expect_open rest t1).
Proof.
  destruct (write_outcome env UUID_CONTROL (count (is_write UUID_CONTROL) t))
    as [[]|ec] eqn:Ec.
  2:{ exists (EvWrite UUID_CONTROL payload :: t), 0%nat, 0%nat.
      split; [lia|]. split; [lia|]. split.
      - footprint_eval. rewrite Nat.add_0_r. repeat split.
      - left. exists ec. cbn [_verify_loop]. io_eval. rewrite Ec. reflexivity. }
  destruct (write_outcome env UUID_WAKE (count (is_write UUID_WAKE) t))
    as [[]|ew] eqn:Ew; [|destruct (is_transient ew) eqn:Tw].
  3:{ eexists _, 1%nat, 0%nat.
      split; [lia|]. split; [lia|]. split.
      2:{ left. exists ew. cbn [_verify_loop]. io_eval.
          rewrite Ec, Ew, Tw. reflexivity. }
      footprint_eval. rewrite Nat.add_0_r. repeat split. }
  all: destruct (read_outcome env UUID_STATUS (count (is_read UUID_STATUS) t))
         as [data|er] eqn:Er;
       [destruct (Bool.eqb (valve_open (decode data)) expect_open) eqn:Hm
       |destruct (is_transient er) eqn:Tr].
  all: eexists _, 1%nat, 1%nat; (split; [lia|]); (split; [lia|]).
  all: try (split;
            [|right; left; exists (decode data);
              cbn [_verify_loop]; io_eval; rewrite Ec, Ew; try rewrite Tw;
              io_eval; rewrite Er, parse_status_decode, Hm;
              split; [reflexivity | apply eqb_prop; exact Hm]];
            footprint_eval; repeat split; lia).
  all: try (split;
            [|right; right;
              cbn [_verify_loop]; io_eval; rewrite Ec, Ew; try rewrite Tw;
              io_eval; rewrite Er; try rewrite parse_status_decode, Hm;
              try rewrite Tr; reflexivity];
            footprint_eval; repeat split; lia).
  all: split;
       [|left; exists er;
         cbn [_verify_loop]; io_eval; rewrite Ec, Ew; try rewrite Tw;
         io_eval; rewrite Er, Tr; reflexivity];
       footprint_eval; repeat split; lia.
Qed.

(** The verify loop over any attempts. *)
Lemma verify_loop_footprint (attempts : list Z) : forall t : Trace,
  exists c w r,
    (c <= List.length attempts)%nat /\ (w <= c)%nat /\ (r <= c)%nat /\
    footprint payload t (snd (_verify_loop env payload expect_open attempts t))
      c w r /\
    sound_result expect_open
      (fst (_verify_loop env payload expect_open attempts t)).
Proof.
  induction attempts as [|attempt rest IH]; intro t.
  - exists 0%nat, 0%nat, 0%nat. cbn [_verify_loop List.length]. unfold ret.
    cbn [fst snd sound_result].
    repeat (split; [lia|]). split; [apply footprint_refl | exact I].
  - destruct (verify_cycle_footprint attempt rest t)
      as (t1 & w & r & Hw & Hr & F1 & [[e Hrun] | [[status [Hrun Hopen]] | Hrun]]).
    + exists 1%nat, w, r. rewrite Hrun. cbn [fst snd sound_result List.length].
      repeat (split; [lia|]). split; [exact F1 | exact I].
    + exists 1%nat, w, r. rewrite Hrun. cbn [fst snd sound_result List.length].
      repeat (split; [lia|]). split; [exact F1 | exact Hopen].
    + destruct (IH t1) as (c' & w' & r' & Hc' & Hw' & Hr' & F2 & Hsound).
      exists (c' + 1)%nat, (w' + w)%nat, (r + r')%nat. rewrite Hrun.
      cbn [List.length]. repeat (split; [lia|]).
      split; [exact (footprint_trans _ _ _ _ _ _ _ _ _ _ F1 F2) | exact Hsound].
Qed.

(** The whole protocol: at most [COMMAND_VERIFY_ATTEMPTS] command writes,
    all of [payload]; a returned status reports the expected state. *)
Lemma verified_command_footprint (t : Trace) :
  exists c w r,
    (c <= Z.to_nat COMMAND_VERIFY_ATTEMPTS)%nat /\ (w <= c + 1)%nat /\
    (r <= c + 1)%nat /\
    footprint payload t (snd (_verified_command env payload expect_open t))
      c w r /\
    sound_result expect_open (fst (_verified_command env payload expect_open t)).
Proof.
  destruct (write_outcome env UUID_WAKE (count (is_write UUID_WAKE) t))
    as [[]|ew] eqn:Ew.
  2:{ exists 0%nat, 1%nat, 0%nat. unfold _verified_command. io_eval.
      rewrite Ew. cbn [fst snd sound_result].
      repeat (split; [lia|]). split; [|exact I].
      footprint_solve. }
  destruct (read_outcome env UUID_STATUS (count (is_read UUID_STATUS) t))
    as [data|er] eqn:Er.
  2:{ exists 0%nat, 1%nat, 1%nat. unfold _verified_command. io_eval.
      rewrite Ew. io_eval. rewrite Er. cbn [fst snd sound_result].
      repeat (split; [lia|]). split; [|exact I].
      footprint_solve. }
  rewrite (verified_command_probe env payload expect_open t data Ew Er).
  assert (F0 : footprint payload t (probed t) 0 1 1).
  { unfold probed. footprint_solve. }
  destruct (Bool.eqb (valve_open (decode data)) expect_open) eqn:Hm.
  - exists 0%nat, 1%nat, 1%nat. cbn [fst snd sound_result].
    repeat (split; [lia|]). split; [exact F0 | apply eqb_prop; exact Hm].
  - destruct (verify_loop_footprint (range 1 (COMMAND_VERIFY_ATTEMPTS + 1))
                (probed t)) as (c & w & r & Hc & Hw & Hr & F & Hsound).
    exists (c + 0)%nat, (w + 1)%nat, (1 + r)%nat.
    change (List.length (range 1 (COMMAND_VERIFY_ATTEMPTS + 1))) with 3%nat in Hc.
    change (Z.to_nat COMMAND_VERIFY_ATTEMPTS) with 3%nat.
    repeat (split; [lia|]).
    split; [exact (footprint_trans _ _ _ _ _ _ _ _ _ _ F0 F) | exact Hsound].
Qed.

End Footprint.

Lemma bind_ret_run {S A : Type} (m : M S A) (s : S) :
  (x <- m ;; ret x) s = m s.
Proof. unfold bind, ret. destruct (m s) as [[a|e] s']; reflexivity. Qed.

Lemma verified_command_within (env : Env) (payload : bytes) (expect_open : bool) :
  within payload (Z.to_nat COMMAND_VERIFY_ATTEMPTS)
    (result <- _verified_command env payload expect_open ;; ret result).
Proof.
  intro t. rewrite bind_ret_run.
  destruct (verified_command_footprint env payload expect_open t)
    as (c & w & r & Hc & Hw & Hr & F & _).
  exists c, w, r. repeat (split; [assumption|]). exact F.
Qed.

(** A status read: no command write at all. *)
Lemma read_within (env : Env) (payload : bytes) :
  within payload 0 (wake_up env ;; _read_status_raw env).
Proof.
  intro t.
  destruct (write_outcome env UUID_WAKE (count (is_write UUID_WAKE) t))
    as [[]|ew] eqn:Ew.
  - exists 0%nat, 1%nat, 1%nat. repeat (split; [lia|]).
    io_eval. rewrite Ew. io_eval.
    destruct (read_outcome env UUID_STATUS (count (is_read UUID_STATUS) t));
      cbn [fst snd]; footprint_solve.
  - exists 0%nat, 1%nat, 0%nat. repeat (split; [lia|]).
    io_eval. rewrite Ew. cbn [fst snd]. footprint_solve.
Qed.

(** ** The transport executor, whatever the device does *)

Lemma returned_connects_0 (env : Env) (first : nat) :
  returned_connects env first 0 = 0%nat.
Proof. reflexivity. Qed.

Lemma returned_connects_S (env : Env) (first k : nat) :
  returned_connects env first (S k) =
  ((if is_ok (connect_outcome env first) then 1 else 0)
   + returned_connects env (S first) k)%nat.
Proof.
  unfold returned_connects. cbn [seq filter].
  destruct (is_ok (connect_outcome env first)); reflexivity.
Qed.

Lemma session_refl (env : Env) (payload : bytes) (t : Trace) :
  session env payload t t 0 0 0 0.
Proof.
  unfold session. rewrite returned_connects_0, !Nat.add_0_r. repeat split.
Qed.

Section ExecuteFootprint.

Variable env : Env.
Variable self : GalconDevice.
Variable A : Type.
Variable callback : M Trace A.
Variable payload : bytes.
Variable limit : nat.
Hypothesis callback_within : within payload limit callback.

(** One attempt: a connection call, then, when it returned a client, the
    callback on a live connection and the disconnect in every case. *)
Lemma execute_attempt_session (attempt : Z) (rest : list Z)
    (last_error : option exn) (t : Trace) :
  exists t1 c w r,
    (c <= limit)%nat /\ (w <= c + 1)%nat /\ (r <= c + 1)%nat /\
    session env payload t t1 1 c w r /\
    ((exists a, _execute_loop env self callback (attempt :: rest) last_error t
                = (Ok a, t1) /\
                exists t0 t0', callback t0 = (Ok a, t0')) \/
     (exists e, _execute_loop env self callback (attempt :: rest) last_error t
                = (Raise e, t1)) \/
     (exists e, _execute_loop env self callback (attempt :: rest) last_error t
                = _execute_loop env self callback rest (Some e) t1)).
Proof.
  destruct (connect_outcome env (count is_connect t)) as [live|ec] eqn:Ec.
  - (* the connection call returned *)
    assert (Hbody : exists (body : Result A) t2 c w r,
               (c <= limit)%nat /\ (w <= c + 1)%nat /\ (r <= c + 1)%nat /\
               footprint payload (EvConnect (has_ble_device self) :: t) t2 c w r /\
               (if negb live
                then raise (Exn BleakError "Failed to connect")
                else callback) (EvConnect (has_ble_device self) :: t) = (body, t2) /\
               (forall a, body = Ok a -> exists t0 t0', callback t0 = (Ok a, t0'))).
    { destruct live; cbn [negb].
      - destruct (callback_within (EvConnect (has_ble_device self) :: t))
          as (c & w & r & Hc & Hw & Hr & F).
        destruct (callback (EvConnect (has_ble_device self) :: t))
          as [body t2] eqn:Hcb.
        exists body, t2, c, w, r.
        split; [exact Hc|]. split; [exact Hw|]. split; [exact Hr|].
        split; [exact F|]. split; [reflexivity|].
        intros a ->. eauto.
      - eexists _, _, 0%nat, 0%nat, 0%nat. repeat (split; [lia|]).
        split; [apply footprint_refl|]. split; [reflexivity|].
        intros a Ha. discriminate Ha. }
    destruct Hbody as (body & t2 & c & w & r & Hc & Hw & Hr & F & Hrun & Hok).
    assert (Hs : forall sl : list Q,
               session env payload t
                 (map EvSleep sl ++ EvDisconnect :: t2)%list 1 c w r).
    { intro sl. destruct F as (F1 & F2 & F3 & F4 & F5 & F6 & F7).
      revert F1 F2 F3 F4 F5 F6 F7.
      cbn [writes_to count is_write is_read is_connect is_disconnect
           Characteristic_eqb].
      intros F1 F2 F3 F4 F5 F6 F7.
      unfold session. rewrite returned_connects_S, returned_connects_0, Ec.
      cbn [is_ok].
      induction sl as [|d sl IHsl].
      - cbn [map app writes_to count is_write is_read is_connect is_disconnect
             Characteristic_eqb].
        rewrite F1, F2, F3, F4, F5, F6, F7. repeat split; lia.
      - cbn [map app writes_to count is_write is_read is_connect is_disconnect
             Characteristic_eqb]. exact IHsl. }
    exists (match disconnect_outcome env (count is_disconnect t2) with
            | Ok _ => match body with
                      | Ok _ => EvDisconnect :: t2
                      | Raise e => if is_transient e
                                   then if attempt <? MAX_RETRIES
                                        then EvSleep (2 * inject_Z attempt) :: EvDisconnect :: t2
                                        else EvDisconnect :: t2
                                   else EvDisconnect :: t2
                      end
            | Raise e => if is_transient e
                         then if attempt <? MAX_RETRIES
                              then EvSleep (2 * inject_Z attempt) :: EvDisconnect :: t2
                              else EvDisconnect :: t2
                         else EvDisconnect :: t2
            end), c, w, r.
    split; [exact Hc|]. split; [exact Hw|]. split; [exact Hr|].
    split.
    { destruct (disconnect_outcome env (count is_disconnect t2)) as [[]|ed];
        [destruct body as [a|eb]; [|destruct (is_transient eb)]
        |destruct (is_transient ed)];
        try destruct (attempt <? MAX_RETRIES);
        first [exact (Hs []) | exact (Hs [(2 * inject_Z attempt)%Q])]. }
    cbn [_execute_loop]. io_eval. rewrite Ec. cbn [negb].
    fold (@raise Trace A (Exn BleakError "Failed to connect")).
    rewrite Hrun.
    destruct (disconnect_outcome env (count is_disconnect t2)) as [[]|ed].
    + destruct body as [a|eb].
      * left. exists a. split; [reflexivity | exact (Hok a eq_refl)].
      * destruct (is_transient eb).
        -- right; right. exists eb.
           destruct (attempt <? MAX_RETRIES); reflexivity.
        -- right; left. exists eb. reflexivity.
    + destruct (is_transient ed).
      * right; right. exists ed.
        destruct (attempt <? MAX_RETRIES); reflexivity.
      * right; left. exists ed. reflexivity.
  - (* the connection call raised *)
    exists (if is_transient ec
            then if attempt <? MAX_RETRIES
                 then EvSleep (2 * inject_Z attempt)
                      :: EvConnect (has_ble_device self) :: t
                 else EvConnect (has_ble_device self) :: t
            else EvConnect (has_ble_device self) :: t), 0%nat, 0%nat, 0%nat.
    repeat (split; [lia|]).
    split.
    { unfold session. rewrite returned_connects_S, returned_connects_0, Ec.
      cbn [is_ok].
      destruct (is_transient ec); [destruct (attempt <? MAX_RETRIES)|];
        cbn [writes_to count is_write is_read is_connect is_disconnect
             Characteristic_eqb repeat app];
        repeat split; lia. }
    cbn [_execute_loop]. io_eval. rewrite Ec.
    destruct (is_transient ec).
    + right; right. exists ec. destruct (attempt <? MAX_RETRIES); reflexivity.
    + right; left. exists ec. reflexivity.
Qed.

End ExecuteFootprint.

Lemma returned_connects_add (env : Env) (first k1 k2 : nat) :
  returned_connects env first (k1 + k2) =
  (returned_connects env first k1 + returned_connects env (first + k1) k2)%nat.
Proof.
  unfold returned_connects.
  rewrite seq_app, filter_app, length_app. reflexivity.
Qed.

Lemma session_trans (env : Env) (payload : bytes) (t t1 t2 : Trace)
    (k1 c1 w1 r1 k2 c2 w2 r2 : nat) :
  session env payload t t1 k1 c1 w1 r1 ->
  session env payload t1 t2 k2 c2 w2 r2 ->
  session env payload t t2 (k1 + k2) (c2 + c1) (w2 + w1) (r1 + r2).
Proof.
  unfold session.
  intros (A1 & A2 & A3 & A4 & A5 & A6 & A7) (B1 & B2 & B3 & B4 & B5 & B6 & B7).
  rewrite B1, B2, B3, B4, B5, B6, B7, A1, A2, A3, A4, A5, A6, A7.
  rewrite returned_connects_add, !repeat_app, <- !app_assoc.
  repeat split; lia.
Qed.

Section ExecuteSession.

Variable env : Env.
Variable self : GalconDevice.
Variable A : Type.
Variable callback : M Trace A.
Variable payload : bytes.
Variable limit : nat.
Hypothesis callback_within : within payload limit callback.

(** The retry loop over any attempts: one connection call for each attempt
    made, one disconnect for each call that returned, and a returned value
    is a value the callback returned. *)
Lemma execute_loop_session (attempts : list Z) :
  forall (last_error : option exn) (t : Trace),
  exists k c w r,
    (k <= List.length attempts)%nat /\ (attempts <> [] -> 1 <= k)%nat /\
    (c <= limit * k)%nat /\ (w <= c + k)%nat /\ (r <= c + k)%nat /\
    session env payload t
      (snd (_execute_loop env self callback attempts last_error t)) k c w r /\
    (forall a,
       fst (_execute_loop env self callback attempts last_error t) = Ok a ->
       exists t0 t0', callback t0 = (Ok a, t0')).
Proof.
  induction attempts as [|attempt rest IH]; intros last_error t.
  - exists 0%nat, 0%nat, 0%nat, 0%nat. cbn [_execute_loop List.length].
    unfold raise. cbn [fst snd].
    split; [lia|]. split; [intro H; exfalso; apply H; reflexivity|].
    repeat (split; [lia|]).
    split; [apply session_refl | intros a H; discriminate H].
  - destruct (execute_attempt_session env self A callback payload limit
                callback_within attempt rest last_error t)
      as (t1 & c & w & r & Hc & Hw & Hr & S1
          & [[a [Hrun Hcb]] | [[e Hrun] | [e Hrun]]]).
    + exists 1%nat, c, w, r. rewrite Hrun. cbn [fst snd List.length].
      split; [lia|]. split; [intros _; lia|].
      repeat (split; [lia|]). split; [exact S1|].
      intros a' Ha. injection Ha as <-. exact Hcb.
    + exists 1%nat, c, w, r. rewrite Hrun. cbn [fst snd List.length].
      split; [lia|]. split; [intros _; lia|].
      repeat (split; [lia|]). split; [exact S1|].
      intros a' Ha. discriminate Ha.
    + destruct (IH (Some e) t1) as (k' & c' & w' & r' & Hk' & _ & Hc' & Hw' & Hr' & S2 & Hres).
      exists (1 + k')%nat, (c' + c)%nat, (w' + w)%nat, (r + r')%nat.
      rewrite Hrun. cbn [List.length].
      split; [lia|]. split; [intros _; lia|].
      split; [nia|]. split; [lia|]. split; [lia|].
      split; [exact (session_trans _ _ _ _ _ _ _ _ _ _ _ _ _ S1 S2) | exact Hres].
Qed.

End ExecuteSession.

(** ** The three driver operations, whatever the device does *)

Section DriverOperations.

Variable env : Env.
Variable self : GalconDevice.

Lemma command_session (payload : bytes) (expect_open : bool) (t : Trace) :
  let run := _execute env self
               (result <- _verified_command env payload expect_open ;; ret result) t in
  (exists k c w r,
     (1 <= k <= 3)%nat /\ (c <= 3 * k)%nat /\ (w <= c + k)%nat /\
     (r <= c + k)%nat /\ session env payload t (snd run) k c w r) /\
  sound_result expect_open (fst run).
Proof.
  intro run. subst run. unfold _execute.
  destruct (execute_loop_session env self CommandResult _ payload
              (Z.to_nat COMMAND_VERIFY_ATTEMPTS)
              (verified_command_within env payload expect_open)
              (range 1 (MAX_RETRIES + 1)) None t)
    as (k & c & w & r & Hk & Hk1 & Hc & Hw & Hr & S & Hres).
  change (List.length (range 1 (MAX_RETRIES + 1))) with 3%nat in Hk.
  change (Z.to_nat COMMAND_VERIFY_ATTEMPTS) with 3%nat in Hc.
  split.
  - exists k, c, w, r.
    split; [split; [apply Hk1; discriminate | exact Hk]|].
    repeat (split; [assumption|]). exact S.
  - destruct (fst (_execute_loop env self _ (range 1 (MAX_RETRIES + 1)) None t))
      as [result|e] eqn:Hrun; [|exact I].
    destruct (Hres result eq_refl) as (t0 & t0' & Hcb).
    rewrite bind_ret_run in Hcb.
    destruct (verified_command_footprint env payload expect_open t0)
      as (_ & _ & _ & _ & _ & _ & _ & Hsound).
    rewrite Hcb in Hsound. exact Hsound.
Qed.

(** X1. A status returned by [open_valve] reports the valve open, and one
    returned by [close_valve] reports it closed, for every behaviour of the
    device and the radio; neither returns [None]. *)
Theorem returned_status_reports_requested_state (t : Trace)
    (hours minutes seconds : Z) :
  match fst (open_valve env self hours minutes seconds t) with
  | Ok (VStatus status) => valve_open status = true
  | Ok VFalse => True
  | Ok VNone => False
  | Raise _ => True
  end /\
  match fst (close_valve env self t) with
  | Ok (VStatus status) => valve_open status = false
  | Ok VFalse => True
  | Ok VNone => False
  | Raise _ => True
  end.
Proof.
  split.
  - exact (proj2 (command_session (open_payload hours minutes seconds) true t)).
  - exact (proj2 (command_session CMD_CLOSE_VALVE false t)).
Qed.


(** X3. Whatever the device does, each driver operation makes between one and
    [MAX_RETRIES] connection calls and one disconnect call for each
    connection call that returned a client: no connection is left open and
    nothing is released that was not connected. *)
Theorem every_connection_is_released (t : Trace) :
  released env t (snd (get_status env self t)) /\
  (forall hours minutes seconds : Z,
     released env t (snd (open_valve env self hours minutes seconds t))) /\
  released env t (snd (close_valve env self t)).
Proof.
  unfold released. change (Z.to_nat MAX_RETRIES) with 3%nat.
  split; [|split].
  - unfold get_status, _execute.
    destruct (execute_loop_session env self GalconStatus _ [] 0
                (read_within env []) (range 1 (MAX_RETRIES + 1)) None t)
      as (k & c & w & r & Hk & Hk1 & _ & _ & _ & (_ & _ & _ & _ & _ & S6 & S7) & _).
    change (List.length (range 1 (MAX_RETRIES + 1))) with 3%nat in Hk.
    exists k. split; [split; [apply Hk1; discriminate | exact Hk]|].
    split; assumption.
  - intros hours minutes seconds.
    destruct (proj1 (command_session (open_payload hours minutes seconds) true t))
      as (k & c & w & r & Hk & _ & _ & _ & (_ & _ & _ & _ & _ & S6 & S7)).
    exists k. repeat split; try assumption; lia.
  - destruct (proj1 (command_session CMD_CLOSE_VALVE false t))
      as (k & c & w & r & Hk & _ & _ & _ & (_ & _ & _ & _ & _ & S6 & S7)).
    exists k. repeat split; try assumption; lia.
Qed.

End DriverOperations.

(** ** The transport executor: recovery, dead connections, failing release *)

Section ExecuteScenarios.

Variable env : Env.
Variable self : GalconDevice.
Variable A : Type.
Variable callback : M Trace A.

(** An attempt whose connection is not live: the callback is not run, the
    client is disconnected, and the attempt counts as a transient failure. *)
Lemma execute_attempt_not_live (attempt : Z) (rest : list Z)
    (last_error : option exn) (t : Trace) :
  connect_outcome env (count is_connect t) = Ok false ->
  disconnect_outcome env (count is_disconnect t) = Ok tt ->
  _execute_loop env self callback (attempt :: rest) last_error t =
  _execute_loop env self callback rest (Some (Exn BleakError "Failed to connect"))
    (if attempt <? MAX_RETRIES
     then EvSleep (2 * inject_Z attempt) :: EvDisconnect
          :: EvConnect (has_ble_device self) :: t
     else EvDisconnect :: EvConnect (has_ble_device self) :: t).
Proof.
  intros Hc Hd. cbn [_execute_loop]. io_eval. rewrite Hc. cbn [negb].
  io_eval. rewrite Hd. cbn [is_transient exn_cls].
  destruct (attempt <? MAX_RETRIES); reflexivity.
Qed.

(** An attempt whose disconnect raises: the error replaces the outcome of
    the callback, and is handled as an error of the attempt. *)
Lemma execute_attempt_release_fails (attempt : Z) (rest : list Z)
    (last_error : option exn) (t t1 : Trace) (outcome : Result A) (e : exn) :
  connect_outcome env (count is_connect t) = Ok true ->
  callback (EvConnect (has_ble_device self) :: t) = (outcome, t1) ->
  disconnect_outcome env (count is_disconnect t1) = Raise e ->
  _execute_loop env self callback (attempt :: rest) last_error t =
  if is_transient e
  then _execute_loop env self callback rest (Some e)
         (if attempt <? MAX_RETRIES
          then EvSleep (2 * inject_Z attempt) :: EvDisconnect :: t1
          else EvDisconnect :: t1)
  else (Raise e, EvDisconnect :: t1).
Proof.
  intros Hc Hcb Hd. cbn [_execute_loop]. io_eval. rewrite Hc. cbn [negb].
  rewrite Hcb, Hd.
  destruct (is_transient e); [|reflexivity].
  destruct (attempt <? MAX_RETRIES); reflexivity.
Qed.

(** X4. When the first connection call fails with a transient error and the
    second attempt goes through, [_execute] returns what the callback
    returned, after exactly one backoff sleep, of 2 seconds. *)
Theorem second_attempt_succeeds (t t1 : Trace) (e : exn) (a : A) :
  connect_outcome env (count is_connect t) = Raise e ->
  is_transient e = true ->
  connect_outcome env (count is_connect t + 1) = Ok true ->
  callback (EvConnect (has_ble_device self) :: EvSleep 2
            :: EvConnect (has_ble_device self) :: t) = (Ok a, t1) ->
  disconnect_outcome env (count is_disconnect t1) = Ok tt ->
  _execute env self callback t = (Ok a, EvDisconnect :: t1).
Proof.
  intros H1 T1 H2 Hcb Hd.
  unfold _execute. change (range 1 (MAX_RETRIES + 1)) with [1; 2; 3].
  rewrite (execute_attempt_connect_fails env self A callback 1 _ _ t e H1 T1).
  change (1 <? MAX_RETRIES) with true. cbv iota.
  apply execute_attempt_returns.
  - io_eval. rewrite <- H2. f_equal. lia.
  - exact Hcb.
  - exact Hd.
Qed.

(** X5. When every connection call returns a client that is not connected,
    the callback is never run: [_execute] disconnects each client, backs
    off as after any failed attempt, and raises the [ConnectionError] of
    the last "Failed to connect". *)
Theorem dead_connections_never_run_the_callback (t : Trace) :
  connect_outcome env (count is_connect t) = Ok false ->
  connect_outcome env (count is_connect t + 1) = Ok false ->
  connect_outcome env (count is_connect t + 2) = Ok false ->
  disconnect_outcome env (count is_disconnect t) = Ok tt ->
  disconnect_outcome env (count is_disconnect t + 1) = Ok tt ->
  disconnect_outcome env (count is_disconnect t + 2) = Ok tt ->
  _execute env self callback t =
  (Raise (Exn ConnectionError
            ("Failed to communicate with Galcon device " ++ address self
             ++ " after 3 attempts: Failed to connect")),
   EvDisconnect :: EvConnect (has_ble_device self)
   :: EvSleep 4 :: EvDisconnect :: EvConnect (has_ble_device self)
   :: EvSleep 2 :: EvDisconnect :: EvConnect (has_ble_device self) :: t).
Proof.
  intros C1 C2 C3 D1 D2 D3.
  unfold _execute. change (range 1 (MAX_RETRIES + 1)) with [1; 2; 3].
  rewrite (execute_attempt_not_live 1 _ _ t C1 D1).
  change (1 <? MAX_RETRIES) with true. cbv iota.
  rewrite (execute_attempt_not_live 2).
  2:{ io_eval. rewrite <- C2. f_equal. lia. }
  2:{ io_eval. rewrite <- D2. f_equal. lia. }
  change (2 <? MAX_RETRIES) with true. cbv iota.
  rewrite (execute_attempt_not_live 3).
  2:{ io_eval. rewrite <- C3. f_equal. lia. }
  2:{ io_eval. rewrite <- D3. f_equal. lia. }
  reflexivity.
Qed.

(** X6. When the disconnect after a callback that returned raises a transient
    error, the value is dropped and the operation is run again: the
    callback is called a second time on the next connection, and its second
    value is the one returned.  A disconnect error that is not transient is
    raised in place of the value. *)
Theorem failed_release_repeats_the_operation (t t1 t2 : Trace) (e : exn)
    (a1 a2 : A) :
  connect_outcome env (count is_connect t) = Ok true ->
  callback (EvConnect (has_ble_device self) :: t) = (Ok a1, t1) ->
  disconnect_outcome env (count is_disconnect t1) = Raise e ->
  (is_transient e = false ->
   _execute env self callback t = (Raise e, EvDisconnect :: t1)) /\
  (is_transient e = true ->
   connect_outcome env (count is_connect t1) = Ok true ->
   callback (EvConnect (has_ble_device self) :: EvSleep 2 :: EvDisconnect :: t1)
     = (Ok a2, t2) ->
   disconnect_outcome env (count is_disconnect t2) = Ok tt ->
   _execute env self callback t = (Ok a2, EvDisconnect :: t2)).
Proof.
  intros Hc Hcb Hd.
  unfold _execute. change (range 1 (MAX_RETRIES + 1)) with [1; 2; 3].
  rewrite (execute_attempt_release_fails 1 _ _ t t1 (Ok a1) e Hc Hcb Hd).
  split.
  - intros ->. reflexivity.
  - intros -> Hc2 Hcb2 Hd2.
    change (1 <? MAX_RETRIES) with true. cbv iota.
    apply execute_attempt_returns; [exact Hc2 | exact Hcb2 | exact Hd2].
Qed.

End ExecuteScenarios.

(** ** The command payload and the decoded fields *)

(** X7. The wire format of the open command: the fixed simple open when the
    three values are all 0, otherwise 00 03 00 followed by the three values
    taken modulo 256 and 00; always 7 bytes.  Values from 0 to 255 are sent
    as they are. *)
Theorem open_payload_wire_format (hours minutes seconds : Z) :
  map int_of_byte (open_payload hours minutes seconds) =
    (if (hours =? 0) && (minutes =? 0) && (seconds =? 0)
     then [0; 1; 0; 0; 0; 0; 0]
     else [0; 3; 0; hours mod 256; minutes mod 256; seconds mod 256; 0]) /\
  List.length (open_payload hours minutes seconds) = 7%nat /\
  (0 <= hours < 256 -> 0 <= minutes < 256 -> 0 <= seconds < 256 ->
   (hours, minutes, seconds) <> (0, 0, 0) ->
   map int_of_byte (open_payload hours minutes seconds) =
     [0; 3; 0; hours; minutes; seconds; 0]).
Proof.
  assert (Hmask : forall n, Z.land n 255 = n mod 256).
  { intro n. change 255 with (Z.ones 8). rewrite Z.land_ones by lia. reflexivity. }
  assert (Hfmt : map int_of_byte (open_payload hours minutes seconds) =
    (if (hours =? 0) && (minutes =? 0) && (seconds =? 0)
     then [0; 1; 0; 0; 0; 0; 0]
     else [0; 3; 0; hours mod 256; minutes mod 256; seconds mod 256; 0])).
  { unfold open_payload.
    destruct ((hours =? 0) && (minutes =? 0) && (seconds =? 0)).
    - reflexivity.
    - cbn [map]. rewrite !byte_of_masked_value, !Hmask. reflexivity. }
  split; [exact Hfmt|]. split.
  - unfold open_payload.
    destruct ((hours =? 0) && (minutes =? 0) && (seconds =? 0)); reflexivity.
  - intros Hh Hm Hs Hnz. rewrite Hfmt.
    destruct ((hours =? 0) && (minutes =? 0) && (seconds =? 0)) eqn:Hz.
    + exfalso. apply Hnz.
      apply andb_true_iff in Hz as [Hz Hz3].
      apply andb_true_iff in Hz as [Hz1 Hz2].
      apply Z.eqb_eq in Hz1, Hz2, Hz3. subst. reflexivity.
    + rewrite !Z.mod_small by lia. reflexivity.
Qed.

(** X8. Every field of a decoded status is a byte value: hours, minutes and
    seconds lie between 0 and 255, and so does the battery level when there
    is one (no check against 23, 59 or 100 is made), so the remaining time
    lies between 0 and 933555 seconds. *)
Theorem decoded_fields_are_bytes (data : bytes) (status : GalconStatus) :
  _parse_status data = Ok status ->
  0 <= hours_remaining status < 256 /\
  0 <= minutes_remaining status < 256 /\
  0 <= seconds_remaining status < 256 /\
  (forall level, battery_level status = Some level -> 0 <= level < 256) /\
  0 <= time_remaining_seconds status <= 933555 /\
  raw status = data.
Proof.
  rewrite parse_status_decode. intro H. injection H as <-.
  assert (Hf : 0 <= hours_remaining (decode data) < 256 /\
               0 <= minutes_remaining (decode data) < 256 /\
               0 <= seconds_remaining (decode data) < 256).
  { unfold decode. destruct (List.length data <? 5)%nat; cbn.
    - lia.
    - unfold byte_at. repeat split; apply int_of_byte_range. }
  destruct Hf as (Hh & Hm & Hs).
  repeat (split; [assumption|]).
  split.
  { intros level. unfold decode.
    destruct (List.length data <? 5)%nat; cbn [battery_level];
      [intro H; discriminate H|].
    destruct (nth_error data 5) as [b|]; cbn [option_map];
      [|intro H; discriminate H].
    intro H. injection H as <-. apply int_of_byte_range. }
  split.
  { unfold time_remaining_seconds. lia. }
  unfold decode. destruct (List.length data <? 5)%nat; reflexivity.
Qed.

(** * Further properties of the coordinator *)

(** ** The poll cycle while polling is switched off *)

(** X9. With polling disabled the poll cycle makes no call to the device and
    never raises; it leaves the failure counter, the phase and the
    listeners alone, returns the cached status, or the closed status over
    an empty [raw] when nothing is cached, which it then caches; a second
    cycle returns the same status and changes nothing. *)
Theorem disabled_poll_is_silent (env : Env) (c : Coordinator) (t : Trace) :
  polling_enabled c = false ->
  let run := _async_update_data env (c, t) in
  snd (snd run) = t /\
  fst run = Ok (match _last_known_status c with
                | Some cached => cached
                | None => mkStatus false false 0 0 0 [] None
                end) /\
  (forall status, fst run = Ok status ->
     _last_known_status (fst (snd run)) = Some status) /\
  consecutive_failures (fst (snd run)) = consecutive_failures c /\
  operation_state (fst (snd run)) = operation_state c /\
  phase_history (fst (snd run)) = phase_history c /\
  listener_calls (fst (snd run)) = listener_calls c /\
  _async_update_data env (snd run) = (fst run, snd run).
Proof.
  intros Hen run. subst run. rewrite (poll_disabled env c t Hen).
  destruct (_last_known_status c) as [cached|] eqn:Hc; cbn [fst snd].
  - split; [reflexivity|]. split; [reflexivity|].
    split; [intros status H; injection H as <-; exact Hc|].
    repeat (split; [reflexivity|]).
    rewrite (poll_disabled env c t Hen), Hc. reflexivity.
  - split; [reflexivity|]. split; [reflexivity|].
    split; [intros status H; injection H as <-; reflexivity|].
    repeat (split; [reflexivity|]).
    rewrite poll_disabled by exact Hen. reflexivity.
Qed.

(** ** Listeners *)

Lemma fold_calls (state : OperationState) (listeners : list Listener) :
  forall calls : list (Listener * OperationState),
  fold_left (fun acc l => (l, state) :: acc) listeners calls =
  (rev (map (fun l => (l, state)) listeners) ++ calls)%list.
Proof.
  induction listeners as [|l ls IH]; intro calls.
  - reflexivity.
  - cbn [fold_left map rev]. rewrite IH, <- app_assoc. reflexivity.
Qed.

(** X10. Every change of phase calls each registered listener once, in the
    order of registration, and each call sees the new phase; a listener
    registered several times is called as many times.  Registration adds
    the listener at the end and calls nobody. *)
Theorem listeners_see_every_phase_change (state : OperationState)
    (c : Coordinator) (listener : Listener) :
  listener_calls (_set_operation_state_on state c) =
    (rev (map (fun l => (l, state)) (_state_listeners c)) ++ listener_calls c)%list /\
  operation_state (_set_operation_state_on state c) = state /\
  _state_listeners (_set_operation_state_on state c) = _state_listeners c /\
  _state_listeners (register_state_listener listener c) =
    (_state_listeners c ++ [listener])%list /\
  listener_calls (register_state_listener listener c) = listener_calls c /\
  listener_calls
    (_set_operation_state_on state (register_state_listener listener c)) =
    ((listener, state) :: listener_calls (_set_operation_state_on state c))%list.
Proof.
  rewrite !set_operation_state_on_eq. destruct c.
  unfold register_state_listener. coord_eval.
  rewrite !fold_calls, map_app, rev_app_distr. repeat split.
Qed.

(** ** Commands: what a command leaves in the coordinator *)

Section CommandEffects.

Variable env : Env.

(** The irrigation in flight after an open command that returned. *)
Lemma open_starts_irrigation (s : CState) (hours minutes seconds : Z) :
  is_ok (fst (async_open_valve env hours minutes seconds s)) = true ->
  exists start,
    _current_irrigation_start
      (fst (snd (async_open_valve env hours minutes seconds s))) = Some start /\
    start = clock env
              (List.length (snd (snd (async_open_valve env hours minutes seconds s)))) /\
    _current_irrigation_duration
      (fst (snd (async_open_valve env hours minutes seconds s))) =
    hours * 60 + minutes + (if seconds =? 0 then 0 else 1).
Proof.
  destruct s as [c t].
  destruct (open_valve env (device c) hours minutes seconds t)
    as [[result|err] t'] eqn:Hdrv.
  2:{ rewrite (open_valve_raises env _ _ _ _ _ _ _ Hdrv). cbn [fst is_ok].
      intro H. discriminate H. }
  rewrite (open_valve_returns env _ _ _ _ _ _ _ Hdrv). cbn [fst snd is_ok].
  intros _. unfold after_open. destruct c. coord_run. unfold py_bool.
  eexists. split; [reflexivity|]. split; [reflexivity|].
  destruct (seconds =? 0); reflexivity.
Qed.

(** The irrigation records after a close command that returned. *)
Lemma close_ends_irrigation (s : CState) :
  is_ok (fst (async_close_valve env s)) = true ->
  _current_irrigation_start (fst (snd (async_close_valve env s))) = None /\
  match _current_irrigation_start (fst s) with
  | Some start =>
      last_irrigation_start (fst (snd (async_close_valve env s))) = Some start /\
      last_irrigation_duration_min (fst (snd (async_close_valve env s))) =
        Some (_current_irrigation_duration (fst s))
  | None =>
      last_irrigation_start (fst (snd (async_close_valve env s))) =
        last_irrigation_start (fst s) /\
      last_irrigation_duration_min (fst (snd (async_close_valve env s))) =
        last_irrigation_duration_min (fst s)
  end.
Proof.
  destruct s as [c t]. cbn [fst].
  destruct (close_valve env (device c) t) as [[result|err] t'] eqn:Hdrv.
  2:{ rewrite (close_valve_raises env _ _ _ _ Hdrv). cbn [fst is_ok].
      intro H. discriminate H. }
  rewrite (close_valve_returns env _ _ _ _ Hdrv). cbn [fst snd is_ok].
  intros _. unfold after_close. destruct c. coord_run.
  destruct _current_irrigation_start0; coord_eval; repeat split.
Qed.



(** X13. A command that raises leaves everything but the phase as it was: the
    cached and published status, the irrigation records, the failure
    counter and the polling switch; it raises the error of the driver. *)
Theorem failed_command_changes_only_the_phase (c : Coordinator) (t : Trace)
    (hours minutes seconds : Z) :
  (forall e, fst (async_open_valve env hours minutes seconds (c, t)) = Raise e ->
     fst (open_valve env (device c) hours minutes seconds t) = Raise e /\
     untouched c (fst (snd (async_open_valve env hours minutes seconds (c, t))))) /\
  (forall e, fst (async_close_valve env (c, t)) = Raise e ->
     fst (close_valve env (device c) t) = Raise e /\
     untouched c (fst (snd (async_close_valve env (c, t))))).
Proof.
  split.
  - intros e.
    destruct (open_valve env (device c) hours minutes seconds t)
      as [[result|err] t'] eqn:Hdrv.
    + rewrite (open_valve_returns env _ _ _ _ _ _ _ Hdrv). cbn [fst].
      intro H. discriminate H.
    + rewrite (open_valve_raises env _ _ _ _ _ _ _ Hdrv). cbn [fst snd].
      intro H. injection H as <-. split; [reflexivity|].
      unfold after_failed_command, untouched. destruct c. coord_run.
      repeat split.
  - intros e.
    destruct (close_valve env (device c) t) as [[result|err] t'] eqn:Hdrv.
    + rewrite (close_valve_returns env _ _ _ _ Hdrv). cbn [fst].
      intro H. discriminate H.
    + rewrite (close_valve_raises env _ _ _ _ Hdrv). cbn [fst snd].
      intro H. injection H as <-. split; [reflexivity|].
      unfold after_failed_command, untouched. destruct c. coord_run.
      repeat split.
Qed.

(** X14. An irrigation opened with [hours], [minutes], [seconds] is recorded
    with the start of the open command and that duration when the valve is
    then closed by command, and as well when the countdown expires. *)
Theorem opened_irrigation_is_recorded (s : CState) (hours minutes seconds : Z) :
  let opened := async_open_valve env hours minutes seconds s in
  let closed := async_close_valve env (snd opened) in
  let expired := async_irrigation_ended (fst (snd opened)) in
  let duration := hours * 60 + minutes + (if seconds =? 0 then 0 else 1) in
  is_ok (fst opened) = true ->
  exists start,
    _current_irrigation_start (fst (snd opened)) = Some start /\
    (is_ok (fst closed) = true ->
     last_irrigation_start (fst (snd closed)) = Some start /\
     last_irrigation_duration_min (fst (snd closed)) = Some duration /\
     _current_irrigation_start (fst (snd closed)) = None) /\
    last_irrigation_start expired = Some start /\
    last_irrigation_duration_min expired = Some duration /\
    _current_irrigation_start expired = None.
Proof.
  intros opened closed expired duration Hopen.
  destruct (open_starts_irrigation s hours minutes seconds Hopen)
    as (start & Hstart & _ & Hdur).
  fold opened in Hstart, Hdur.
  exists start. split; [exact Hstart|]. split.
  - intro Hclose.
    destruct (close_ends_irrigation (snd opened) Hclose) as (Hnone & Hlast).
    fold closed in Hnone, Hlast. rewrite Hstart in Hlast.
    destruct Hlast as [L1 L2]. rewrite Hdur in L2.
    repeat split; assumption.
  - destruct (irrigation_ended_fields (fst (snd opened)) start Hstart)
      as (H1 & H2 & H3 & _).
    fold expired in H1, H2, H3. rewrite Hdur in H2. repeat split; assumption.
Qed.

(** The fields that a countdown expiry sets, for any coordinator. *)
Lemma irrigation_ended_summary (c : Coordinator) :
  _current_irrigation_start (async_irrigation_ended c) = None /\
  last_irrigation_start (async_irrigation_ended c) =
    match _current_irrigation_start c with
    | Some start => Some start
    | None => last_irrigation_start c
    end /\
  last_irrigation_duration_min (async_irrigation_ended c) =
    match _current_irrigation_start c with
    | Some _ => Some (_current_irrigation_duration c)
    | None => last_irrigation_duration_min c
    end /\
  _last_known_status (async_irrigation_ended c) =
    Some (closed_status (carried_raw c) (carried_battery c)) /\
  data (async_irrigation_ended c) =
    Some (closed_status (carried_raw c) (carried_battery c)) /\
  polling_enabled (async_irrigation_ended c) = false /\
  operation_state (async_irrigation_ended c) = IDLE.
Proof.
  unfold async_irrigation_ended, set_polling.
  destruct c as [? ? ? ? ? ? ? ? ? [start|] ? ? ? ? ? ? ? ?];
    coord_run; repeat split.
Qed.

Lemma ending_twice_aux (c once : Coordinator) :
  once = async_irrigation_ended c ->
  _current_irrigation_start once = None /\
  last_irrigation_start (async_irrigation_ended once) = last_irrigation_start once /\
  last_irrigation_duration_min (async_irrigation_ended once) =
    last_irrigation_duration_min once /\
  _last_known_status (async_irrigation_ended once) = _last_known_status once /\
  data (async_irrigation_ended once) = data once /\
  polling_enabled (async_irrigation_ended once) = false /\
  operation_state (async_irrigation_ended once) = IDLE /\
  (forall t : Trace,
     is_ok (fst (async_close_valve env (once, t))) = true ->
     last_irrigation_start (fst (snd (async_close_valve env (once, t)))) =
       last_irrigation_start once /\
     last_irrigation_duration_min (fst (snd (async_close_valve env (once, t)))) =
       last_irrigation_duration_min once).
Proof.
  intro Honce.
  destruct (irrigation_ended_summary c) as (A1 & _ & _ & A4 & A5 & _ & _).
  rewrite <- Honce in A1, A4, A5.
  destruct (irrigation_ended_summary once) as (_ & B2 & B3 & B4 & B5 & B6 & B7).
  rewrite A1 in B2, B3.
  assert (Hcarried : closed_status (carried_raw once) (carried_battery once) =
                     closed_status (carried_raw c) (carried_battery c)).
  { unfold carried_raw at 1, carried_battery at 1. rewrite A4. reflexivity. }
  rewrite Hcarried in B4, B5.
  split; [exact A1|]. split; [exact B2|]. split; [exact B3|].
  split; [rewrite B4, A4; reflexivity|].
  split; [rewrite B5, A5; reflexivity|].
  split; [exact B6|]. split; [exact B7|].
  intros t Hok.
  pose proof (close_ends_irrigation (once, t) Hok) as (_ & Hlast).
  change (fst (once, t)) with once in Hlast. rewrite A1 in Hlast. exact Hlast.
Qed.

(** X15. Ending an irrigation when none is in flight keeps the last record: a
    second countdown expiry, or a close command after the expiry, does not
    overwrite it.  The expiry leaves the same cached status, the same
    record and polling off when it is notified twice. *)
Theorem ending_twice_keeps_the_record (c : Coordinator) :
  let once := async_irrigation_ended c in
  let twice := async_irrigation_ended once in
  _current_irrigation_start once = None /\
  last_irrigation_start twice = last_irrigation_start once /\
  last_irrigation_duration_min twice = last_irrigation_duration_min once /\
  _last_known_status twice = _last_known_status once /\
  data twice = data once /\
  polling_enabled twice = false /\
  operation_state twice = IDLE /\
  (forall t : Trace,
     is_ok (fst (async_close_valve env (once, t))) = true ->
     last_irrigation_start (fst (snd (async_close_valve env (once, t)))) =
       last_irrigation_start once /\
     last_irrigation_duration_min (fst (snd (async_close_valve env (once, t)))) =
       last_irrigation_duration_min once).
Proof.
  exact (ending_twice_aux c (async_irrigation_ended c) eq_refl).
Qed.

End CommandEffects.

(** ** What holds between two operations *)

Ltac destruct_coordinator c :=
  destruct c as [? ? ? ? ? ? ? ? ? [?|] ? ? ? ? ? ? ? ?].

Ltac well_formed_step IH :=
  unfold well_formed in IH |- *; revert IH; coord_run;
  intros (I1 & I2 & I3 & I4 & I5 & I6);
  repeat split; intros;
  try assumption; try discriminate; try lia; try reflexivity;
  try (constructor; [discriminate | assumption]);
  try (left; reflexivity); try (right; reflexivity);
  try (apply I3; assumption); try (apply I6; assumption);
  auto.

Lemma visits_well_formed (env : Env) (s : CState) :
  Visits env s -> well_formed (fst s).
Proof.
  induction 1 as [dev scan | s _ IH | s h m sec _ IH | s _ IH | s _ IH
                 | s enabled _ IH | s listener _ IH | s minutes _ IH
                 | s ble _ IH]; cbn [fst snd].
  - unfold well_formed, init. cbn.
    repeat split; try discriminate; try lia; auto.
  - destruct s as [c t]. cbn [fst] in IH.
    destruct (polling_enabled c) eqn:Hen.
    + destruct (get_status env (device c) t) as [[status|err] t'] eqn:Hget.
      * rewrite (poll_success env _ _ _ _ Hen Hget). cbn [fst snd].
        unfold after_successful_poll. destruct_coordinator c;
          well_formed_step IH.
      * rewrite (poll_failure env _ _ _ _ Hen Hget). cbn [fst snd].
        unfold after_failed_poll. destruct_coordinator c;
          well_formed_step IH.
    + rewrite (poll_disabled env _ t Hen).
      destruct (_last_known_status c) eqn:Hc; cbn [fst snd]; [exact IH|].
      destruct_coordinator c; well_formed_step IH.
  - destruct s as [c t]. cbn [fst] in IH.
    destruct (open_valve env (device c) h m sec t) as [[result|err] t'] eqn:Hdrv.
    + rewrite (open_valve_returns _ _ _ _ _ _ _ _ Hdrv). cbn [fst snd].
      unfold after_open. destruct_coordinator c; well_formed_step IH.
    + rewrite (open_valve_raises _ _ _ _ _ _ _ _ Hdrv). cbn [fst snd].
      unfold after_failed_command. destruct_coordinator c;
        well_formed_step IH.
  - destruct s as [c t]. cbn [fst] in IH.
    destruct (close_valve env (device c) t) as [[result|err] t'] eqn:Hdrv.
    + rewrite (close_valve_returns _ _ _ _ _ Hdrv). cbn [fst snd].
      unfold after_close. destruct_coordinator c; well_formed_step IH.
    + rewrite (close_valve_raises _ _ _ _ _ Hdrv). cbn [fst snd].
      unfold after_failed_command. destruct_coordinator c;
        well_formed_step IH.
  - destruct s as [c t]. cbn [fst] in *.
    unfold async_irrigation_ended, set_polling.
    destruct_coordinator c; well_formed_step IH.
  - destruct s as [c t]. cbn [fst] in *.
    unfold set_polling. destruct enabled; destruct_coordinator c;
      well_formed_step IH.
  - destruct s as [c t]. cbn [fst] in *.
    unfold register_state_listener. destruct_coordinator c;
      well_formed_step IH.
  - destruct s as [c t]. cbn [fst] in *. destruct_coordinator c;
      well_formed_step IH.
  - destruct s as [c t]. cbn [fst] in *. destruct_coordinator c;
      well_formed_step IH.
Qed.


(** X17. Between two operations the failure counter is not negative, the start
    and the duration of the last irrigation are set together, the poll
    interval is the base interval or 24 hours, no published status is
    [None], and a published status implies a cached one. *)
Theorem coordinator_keeps_its_records_consistent (env : Env) (s : CState) :
  Visits env s ->
  0 <= consecutive_failures (fst s) /\
  (last_irrigation_start (fst s) = None <->
   last_irrigation_duration_min (fst s) = None) /\
  (update_interval (fst s) = _base_interval (fst s) \/
   update_interval (fst s) = 86400) /\
  Forall (fun d => d <> None) (published (fst s)) /\
  (data (fst s) <> None -> _last_known_status (fst s) <> None).
Proof.
  intro Hv. destruct (visits_well_formed env s Hv) as (_ & H).
  exact H.
Qed.

(** * The entities that use the coordinator *)

(** ** The valve entity *)

Lemma split_minutes (d : Z) :
  divmod (d * 60) 3600 = (d / 60, (d mod 60) * 60) /\
  divmod ((d mod 60) * 60) 60 = (d mod 60, 0).
Proof.
  unfold divmod. split; f_equal.
  - change 3600 with (60 * 60). apply Z.div_mul_cancel_r; lia.
  - change 3600 with (60 * 60). apply Z.mul_mod_distr_r; lia.
  - apply Z.div_mul. lia.
  - apply Z.mod_mul. lia.
Qed.

Section ValveEntity.

Variable env : Env.

(** X18. The valve entity opens with the configured [duration_minutes] split
    into whole hours and minutes and 0 seconds, for any integer duration.
    It returns normally when the coordinator raises a [ConnectionError],
    and raises any other error as it is; the coordinator is left as the
    coordinator's own command leaves it.  When the command returns, the
    irrigation in flight has exactly the configured duration. *)
Theorem valve_entity_opens_for_the_configured_duration (c : Coordinator)
    (t : Trace) :
  let d := duration_minutes c in
  let run := Valve.async_open_valve env (c, t) in
  let command := async_open_valve env (d / 60) (d mod 60) 0 (c, t) in
  snd run = snd command /\
  fst run = match fst command with
            | Ok _ => Ok tt
            | Raise e => if is_connection_error e then Ok tt else Raise e
            end /\
  (is_ok (fst command) = true ->
   _current_irrigation_duration (fst (snd run)) = d).
Proof.
  intros d run command. subst run command d.
  unfold Valve.async_open_valve, bind, gets. cbn [fst snd].
  destruct (split_minutes (duration_minutes c)) as [E1 E2]. rewrite E1, E2.
  unfold try_except.
  pose proof (open_starts_irrigation env (c, t) (duration_minutes c / 60)
                (duration_minutes c mod 60) 0) as Hstart.
  destruct (async_open_valve env (duration_minutes c / 60)
              (duration_minutes c mod 60) 0 (c, t)) as [[[]|e] s'];
    cbn [fst snd is_ok] in *.
  - split; [reflexivity|]. split; [reflexivity|]. intros _.
    destruct (Hstart eq_refl) as (start & _ & _ & Hdur). rewrite Hdur.
    change (0 =? 0) with true. cbv iota.
    pose proof (Z.div_mod (duration_minutes c) 60). lia.
  - destruct (is_connection_error e); unfold ret; cbn [fst snd];
      (split; [reflexivity|]); (split; [reflexivity|]);
      intro H; discriminate H.
Qed.

(** The valve entity closes the same way: a [ConnectionError] of the
    coordinator is not raised again, any other error is. *)
Lemma valve_entity_close (c : Coordinator) (t : Trace) :
  snd (Valve.async_close_valve env (c, t)) = snd (async_close_valve env (c, t)) /\
  fst (Valve.async_close_valve env (c, t)) =
    match fst (async_close_valve env (c, t)) with
    | Ok _ => Ok tt
    | Raise e => if is_connection_error e then Ok tt else Raise e
    end.
Proof.
  unfold Valve.async_close_valve, try_except.
  destruct (async_close_valve env (c, t)) as [[[]|e] s']; cbn [fst snd].
  - split; reflexivity.
  - destruct (is_connection_error e); unfold ret; split; reflexivity.
Qed.

End ValveEntity.

(** ** The battery sensor *)

(** X19. After any sequence of published values the battery sensor shows the
    level of the last value that carried one, and the level it had before
    when none did: a status without a level, or no status, does not erase
    it, so a sensor that is available stays available. *)
Theorem battery_sensor_keeps_the_last_level
    (updates : list (option GalconStatus)) (cached : option Z) :
  BatterySensor.native_value (BatterySensor.after_updates updates cached) =
    match rev (BatterySensor.levels updates) with
    | level :: _ => Some level
    | [] => cached
    end /\
  (BatterySensor.available cached = true ->
   BatterySensor.available (BatterySensor.after_updates updates cached) = true).
Proof.
  unfold BatterySensor.native_value.
  assert (Hval : forall cached0,
    BatterySensor.after_updates updates cached0 =
    match rev (BatterySensor.levels updates) with
    | level :: _ => Some level
    | [] => cached0
    end).
  { induction updates as [|d us IH]; intro cached0.
    - reflexivity.
    - unfold BatterySensor.after_updates in *. cbn [fold_left].
      rewrite IH. unfold BatterySensor.levels. cbn [flat_map].
      fold (BatterySensor.levels us).
      rewrite rev_app_distr.
      destruct (rev (BatterySensor.levels us)) as [|l ls]; [|reflexivity].
      cbn [app]. unfold BatterySensor._handle_coordinator_update.
      destruct d as [status|]; [|reflexivity].
      destruct (battery_level status); reflexivity. }
  split; [apply Hval|].
  rewrite Hval. destruct (rev (BatterySensor.levels updates)); [auto|].
  intros _. reflexivity.
Qed.

(** * Instances of the further properties *)

Lemma second_attempt_succeeds_witness :
  get_status Scenarios.env_wakes_late Examples.dev [] =
  (Ok (decode Examples.status_closed),
   [EvDisconnect; EvRead UUID_STATUS; EvSleep 1;
    EvWrite UUID_WAKE WAKE_PAYLOAD; EvConnect false; EvSleep 2;
    EvConnect false]).
Proof.
  refine (second_attempt_succeeds Scenarios.env_wakes_late Examples.dev
            GalconStatus
            (wake_up Scenarios.env_wakes_late ;;
             _read_status_raw Scenarios.env_wakes_late)
            [] _ (Exn BleakError "Device not found") _ _ _ _ _ _);
    reflexivity.
Defined.

(** X5 at an example device. *)
Lemma dead_connections_never_run_the_callback_witness :
  fst (get_status Scenarios.env_not_live Examples.dev []) =
  Raise (Exn ConnectionError
           "Failed to communicate with Galcon device AA:BB:CC:DD:EE:FF after 3 attempts: Failed to connect").
Proof.
  refine (f_equal fst
            (dead_connections_never_run_the_callback Scenarios.env_not_live
               Examples.dev GalconStatus
               (wake_up Scenarios.env_not_live ;;
                _read_status_raw Scenarios.env_not_live)
               [] _ _ _ _ _ _)); reflexivity.
Defined.

(** X6 at an example device. *)
Lemma failed_release_repeats_the_operation_witness :
  fst (get_status (Scenarios.env_release_fails (Exn OSError "link lost"))
         Examples.dev []) = Ok (decode Examples.status_open) /\
  count (is_read UUID_STATUS)
    (snd (get_status (Scenarios.env_release_fails (Exn OSError "link lost"))
            Examples.dev [])) = 2%nat /\
  fst (get_status (Scenarios.env_release_fails (Exn OtherException "bug"))
         Examples.dev []) = Raise (Exn OtherException "bug").
Proof.
  pose (first_read := [EvRead UUID_STATUS; EvSleep 1;
                       EvWrite UUID_WAKE WAKE_PAYLOAD; EvConnect false]).
  pose (second_read := [EvRead UUID_STATUS; EvSleep 1;
                        EvWrite UUID_WAKE WAKE_PAYLOAD; EvConnect false;
                        EvSleep 2; EvDisconnect; EvRead UUID_STATUS;
                        EvSleep 1; EvWrite UUID_WAKE WAKE_PAYLOAD;
                        EvConnect false]).
  pose proof (failed_release_repeats_the_operation
                (Scenarios.env_release_fails (Exn OSError "link lost"))
                Examples.dev GalconStatus
                (wake_up (Scenarios.env_release_fails (Exn OSError "link lost")) ;;
                 _read_status_raw (Scenarios.env_release_fails (Exn OSError "link lost")))
                [] first_read second_read (Exn OSError "link lost")
                (decode Examples.status_open) (decode Examples.status_open)
                eq_refl eq_refl eq_refl) as [_ Hretry].
  pose proof (failed_release_repeats_the_operation
                (Scenarios.env_release_fails (Exn OtherException "bug"))
                Examples.dev GalconStatus
                (wake_up (Scenarios.env_release_fails (Exn OtherException "bug")) ;;
                 _read_status_raw (Scenarios.env_release_fails (Exn OtherException "bug")))
                [] first_read second_read (Exn OtherException "bug")
                (decode Examples.status_open) (decode Examples.status_open)
                eq_refl eq_refl eq_refl) as [Hraise _].
  unfold get_status.
  rewrite (Hretry eq_refl eq_refl eq_refl eq_refl), (Hraise eq_refl).
  repeat split.
Defined.

(** X7 at an example device. *)
Lemma open_payload_wire_format_witness :
  map int_of_byte (open_payload 0 20 0) = [0; 3; 0; 0; 20; 0; 0].
Proof.
  refine (proj2 (proj2 (open_payload_wire_format 0 20 0)) _ _ _ _);
    try lia. discriminate.
Defined.

(** X8 at an example device. *)
Lemma decoded_fields_are_bytes_witness :
  0 <= time_remaining_seconds (decode Examples.status_open) <= 933555.
Proof.
  refine (proj1 (proj2 (proj2 (proj2 (proj2
            (decoded_fields_are_bytes Examples.status_open
               (decode Examples.status_open) _)))))).
  reflexivity.
Defined.

(** X9 at an example device. *)
Lemma disabled_poll_is_silent_witness :
  snd (snd (_async_update_data Examples.env_dead (Scenarios.idle, []))) = [].
Proof.
  refine (proj1 (disabled_poll_is_silent Examples.env_dead Scenarios.idle [] _)).
  vm_compute. reflexivity.
Defined.



(** X13 at an example device. *)
Lemma failed_command_changes_only_the_phase_witness :
  untouched Scenarios.idle
    (fst (snd (async_open_valve Examples.env_dead 0 20 0 (Scenarios.idle, [])))).
Proof.
  refine (proj2 (proj1 (failed_command_changes_only_the_phase Examples.env_dead
                          Scenarios.idle [] 0 20 0) _ _)).
  vm_compute. reflexivity.
Defined.

(** X14 at an example device. *)
Lemma opened_irrigation_is_recorded_witness :
  exists start,
    last_irrigation_start
      (async_irrigation_ended
         (fst (snd (async_open_valve Examples.env_opens 0 20 0
                      (Scenarios.idle, [])))))
    = Some start /\
    last_irrigation_duration_min
      (async_irrigation_ended
         (fst (snd (async_open_valve Examples.env_opens 0 20 0
                      (Scenarios.idle, [])))))
    = Some (0 * 60 + 20 + (if 0 =? 0 then 0 else 1)).
Proof.
  assert (Hok : is_ok (fst (async_open_valve Examples.env_opens 0 20 0
                              (Scenarios.idle, []))) = true)
    by (vm_compute; reflexivity).
  destruct (opened_irrigation_is_recorded Examples.env_opens
              (Scenarios.idle, []) 0 20 0 Hok)
    as (start & _ & _ & Hstart & Hduration & _).
  exists start. split; [exact Hstart | exact Hduration].
Defined.

(** X15 at an example device. *)
Lemma ending_twice_keeps_the_record_witness :
  last_irrigation_duration_min
    (fst (snd (async_close_valve Examples.env_opens
                 (async_irrigation_ended Scenarios.watering, [])))) =
  last_irrigation_duration_min (async_irrigation_ended Scenarios.watering).
Proof.
  refine (proj2 (proj2 (proj2 (proj2 (proj2 (proj2 (proj2 (proj2
            (ending_twice_keeps_the_record Examples.env_opens
               Scenarios.watering))))))) [] _)).
  vm_compute. reflexivity.
Defined.


(** X17 at an example device. *)
Lemma coordinator_keeps_its_records_consistent_witness :
  0 <= consecutive_failures
         (fst (poll_times Examples.env_dead 2 Examples.polling)).
Proof.
  refine (proj1 (coordinator_keeps_its_records_consistent Examples.env_dead
                   (poll_times Examples.env_dead 2 Examples.polling) _)).
  apply Visits_poll, Visits_poll.
  exact (@Visits_set_polling Examples.env_dead Examples.fresh true
           (@Visits_init Examples.env_dead Examples.dev None)).
Defined.

(** X18 at an example device. *)
Lemma valve_entity_opens_for_the_configured_duration_witness :
  _current_irrigation_duration
    (fst (snd (Valve.async_open_valve Examples.env_opens
                 (Scenarios.ninety_minutes, [])))) =
  duration_minutes Scenarios.ninety_minutes.
Proof.
  refine (proj2 (proj2 (valve_entity_opens_for_the_configured_duration
                          Examples.env_opens Scenarios.ninety_minutes []))
            _).
  vm_compute. reflexivity.
Defined.

(** X19 at an example device. *)
Lemma battery_sensor_keeps_the_last_level_witness :
  BatterySensor.available
    (BatterySensor.after_updates
       [Scenarios.reading (Some 80); Scenarios.reading None; None]
       (Some 90)) = true.
Proof.
  refine (proj2 (battery_sensor_keeps_the_last_level
                   [Scenarios.reading (Some 80); Scenarios.reading None; None]
                   (Some 90)) _).
  reflexivity.
Defined.
